(** * The local builder of skaffold: pkg/skaffold/build/local/local.go

    A shallow embedding of the local build orchestrator.  The Go methods of
    [*Builder] become state-passing functions over a session state made of
    the builder's fields, the state of the outside world (docker daemon,
    registries, file system, log) and the log of the calls made to the
    collaborators that live outside local.go. *)

From Stdlib Require Import String Ascii.
From stdpp Require Import base option strings gmap list.

Set Default Proof Using "Type".
Local Open Scope string_scope.
Local Open Scope list_scope.

(** ** Declarations used by local.go but made elsewhere *)

(** The payload types of the schema ([latest.BazelArtifact] and friends), the
    [context.Context] and [io.Writer] handed through every call, and the
    plugin kinds of package jib are declared outside local.go: they are
    taken as parameters.  The two plugin constants label two cases of one Go
    [switch], so they are distinct. *)
Class Schema : Type := {
  BazelArtifactT : Type;
  JibArtifactT : Type;
  CustomArtifactT : Type;
  BuildpackArtifactT : Type;
  Ctx : Type;
  Writer : Type;
  PluginType : Type;
  PluginType_eq_dec :: EqDecision PluginType;
  JibMaven : PluginType;
  JibGradle : PluginType;
  JibMaven_neq_JibGradle : JibMaven <> JibGradle
}.

(** [latest.DockerArtifact]: local.go reads these two fields. *)
Record DockerArtifactT : Type := {
  DockerfilePath : string;
  BuildArgs : gmap string (option string)
}.

(** [types.ImageInspect]: local.go reads the identifier only. *)
Record ImageInspect : Type := { ID : string }.

Section Model.
Context {Sch : Schema}.

(** [latest.ArtifactType]: one pointer per backend; [nil] is [None]. *)
Record ArtifactType : Type := {
  DockerArtifact : option DockerArtifactT;
  BazelArtifact : option BazelArtifactT;
  JibArtifact : option JibArtifactT;
  CustomArtifact : option CustomArtifactT;
  BuildpackArtifact : option BuildpackArtifactT
}.

(** [latest.Artifact], with the inlined [ArtifactType]. *)
Record Artifact : Type := {
  ImageName : string;
  Workspace : string;
  artifactType :> ArtifactType
}.

(** [build.Artifact], one result of a build. *)
Record BuildResult : Type := {
  res_ImageName : string;
  res_Tag : string
}.

(** Go [error] values.  [ErrExternal] stands for an error made by a
    collaborator; the others are the ones local.go makes itself. *)
Inductive error : Type :=
| ErrExternal (msg : string)
| ErrUndefinedArtifactType (t : ArtifactType)
    (* fmt.Errorf("undefined artifact type: %+v", t) *)
| ErrJibBuilderType (workspace : string)
    (* errors.Errorf("Unable to determine Jib builder type for %s", workspace) *)
| ErrWrap (cause : error) (msg : string)
    (* errors.Wrap(cause, msg) *)
| ErrSyncMapNotSupported.
    (* build.ErrSyncMapNotSupported{} *)

(** The fields of [Builder] that local.go reads or writes; the docker client
    [localDocker] is part of the world. *)
Record Builder : Type := {
  localCluster : bool;
  pushImages : bool;
  kubeContext : string;
  insecureRegistries : gmap string bool;
  builtImages : list string
}.

Definition set_builtImages (l : list string) (b : Builder) : Builder :=
  {| localCluster := localCluster b;
     pushImages := pushImages b;
     kubeContext := kubeContext b;
     insecureRegistries := insecureRegistries b;
     builtImages := l |}.

(** A call that leaves local.go, with its arguments. *)
Inductive Call : Type :=
| CallFprintf (out : Writer) (line : string)
| CallClose
| CallWarnf (msg : string)
| CallBuildDocker (ctx : Ctx) (out : Writer) (a : Artifact) (tag : string)
| CallBuildBazel (ctx : Ctx) (out : Writer) (a : Artifact) (tag : string)
| CallDeterminePluginType (workspace : string) (j : option JibArtifactT)
| CallBuildJibMaven (ctx : Ctx) (out : Writer) (workspace : string)
    (j : option JibArtifactT) (tag : string)
| CallBuildJibGradle (ctx : Ctx) (out : Writer) (workspace : string)
    (j : option JibArtifactT) (tag : string)
| CallBuildCustom (ctx : Ctx) (out : Writer) (a : Artifact) (tag : string)
| CallBuildBuildpack (ctx : Ctx) (out : Writer) (a : Artifact) (tag : string)
| CallImageInspectWithRaw (ctx : Ctx) (tag : string)
| CallTagWithImageID (ctx : Ctx) (tag imageID : string)
| CallDockerGetDependencies (ctx : Ctx) (workspace dockerfilePath : string)
    (buildArgs : gmap string (option string)) (insecure : gmap string bool)
| CallBazelGetDependencies (ctx : Ctx) (workspace : string) (c : BazelArtifactT)
| CallJibGetDependencies (ctx : Ctx) (workspace : string) (c : JibArtifactT)
| CallCustomGetDependencies (ctx : Ctx) (workspace : string) (c : CustomArtifactT)
    (insecure : gmap string bool)
| CallBuildpacksGetDependencies (ctx : Ctx) (workspace : string)
    (c : BuildpackArtifactT)
| CallDockerSyncMap (ctx : Ctx) (workspace dockerfilePath : string)
    (buildArgs : gmap string (option string)) (insecure : gmap string bool).

(** Go's [(T, error)] results. *)
Definition result (T : Type) : Type := (T * option error)%type.

(** The collaborators of local.go: the backends (methods of [*Builder] and
    packages docker, bazel, jib, custom, buildpacks), the docker client and
    the two output channels.  Each one acts on a world of its own; the
    methods of [*Builder] also see the builder they are called on.  The
    helper [util.AbsolutePaths] works on its two arguments only. *)
Class Externals : Type := {
  World : Type;
  ext_Fprintf : Writer -> string -> World -> World;
  ext_Warnf : string -> World -> World;
  ext_Close : World -> World;
  ext_buildDocker :
    Builder -> Ctx -> Writer -> Artifact -> string -> World -> result string * World;
  ext_buildBazel :
    Builder -> Ctx -> Writer -> Artifact -> string -> World -> result string * World;
  ext_DeterminePluginType :
    string -> option JibArtifactT -> World -> result PluginType * World;
  ext_buildJibMaven :
    Builder -> Ctx -> Writer -> string -> option JibArtifactT -> string ->
    World -> result string * World;
  ext_buildJibGradle :
    Builder -> Ctx -> Writer -> string -> option JibArtifactT -> string ->
    World -> result string * World;
  ext_buildCustom :
    Builder -> Ctx -> Writer -> Artifact -> string -> World -> result string * World;
  ext_buildBuildpack :
    Builder -> Ctx -> Writer -> Artifact -> string -> World -> result string * World;
  ext_ImageInspectWithRaw :
    Ctx -> string -> World -> result ImageInspect * World;
  ext_TagWithImageID :
    Ctx -> string -> string -> World -> result string * World;
  ext_dockerGetDependencies :
    Ctx -> string -> string -> gmap string (option string) -> gmap string bool ->
    World -> result (list string) * World;
  ext_bazelGetDependencies :
    Ctx -> string -> BazelArtifactT -> World -> result (list string) * World;
  ext_jibGetDependencies :
    Ctx -> string -> JibArtifactT -> World -> result (list string) * World;
  ext_customGetDependencies :
    Ctx -> string -> CustomArtifactT -> gmap string bool ->
    World -> result (list string) * World;
  ext_buildpacksGetDependencies :
    Ctx -> string -> BuildpackArtifactT -> World -> result (list string) * World;
  ext_dockerSyncMap :
    Ctx -> string -> string -> gmap string (option string) -> gmap string bool ->
    World -> result (option (gmap string (list string))) * World;
  ext_AbsolutePaths : string -> list string -> list string
}.

Context {Ext : Externals}.

(** ** Session state and the monad of the builder's methods *)

Record State : Type := {
  st_builder : Builder;
  st_world : World;
  st_trace : list Call
}.

Definition M (A : Type) : Type := State -> A * State.

Definition ret {A} (a : A) : M A := fun s => (a, s).

Definition bind {A B} (m : M A) (k : A -> M B) : M B :=
  fun s => let (a, s') := m s in k a s'.

Notation "'do' x <- m ; k" := (bind m (fun x => k))
  (at level 10, x binder, m at level 100, k at level 200).
Notation "'run' m ; k" := (bind m (fun _ => k))
  (at level 10, m at level 100, k at level 200).

(** Reading the receiver [b]. *)
Definition getBuilder : M Builder := fun s => (st_builder s, s).

(** [b.builtImages = append(b.builtImages, imageID)] *)
Definition appendBuiltImage (imageID : string) : M unit := fun s =>
  (tt, {| st_builder :=
            set_builtImages (builtImages (st_builder s) ++ [imageID]) (st_builder s);
          st_world := st_world s;
          st_trace := st_trace s |}).

(** A call to a collaborator: it is logged and acts on the world. *)
Definition invoke {A} (c : Call) (f : World -> A * World) : M A := fun s =>
  let (r, w) := f (st_world s) in
  (r, {| st_builder := st_builder s; st_world := w; st_trace := st_trace s ++ [c] |}).

Definition invoke_ (c : Call) (f : World -> World) : M unit :=
  invoke c (fun w => (tt, f w)).

(** Go's [p != nil]. *)
Definition notNil {A} (p : option A) : bool :=
  match p with Some _ => true | None => false end.

(** ** The collaborators, as logged calls *)

Definition Fprintf (out : Writer) (line : string) : M unit :=
  invoke_ (CallFprintf out line) (ext_Fprintf out line).

Definition Warnf (msg : string) : M unit :=
  invoke_ (CallWarnf msg) (ext_Warnf msg).

Definition Close : M unit := invoke_ CallClose ext_Close.

Definition buildDocker (ctx : Ctx) (out : Writer) (a : Artifact) (tag : string)
  : M (result string) :=
  do b <- getBuilder;
  invoke (CallBuildDocker ctx out a tag) (ext_buildDocker b ctx out a tag).

Definition buildBazel (ctx : Ctx) (out : Writer) (a : Artifact) (tag : string)
  : M (result string) :=
  do b <- getBuilder;
  invoke (CallBuildBazel ctx out a tag) (ext_buildBazel b ctx out a tag).

Definition buildCustom (ctx : Ctx) (out : Writer) (a : Artifact) (tag : string)
  : M (result string) :=
  do b <- getBuilder;
  invoke (CallBuildCustom ctx out a tag) (ext_buildCustom b ctx out a tag).

Definition buildBuildpack (ctx : Ctx) (out : Writer) (a : Artifact) (tag : string)
  : M (result string) :=
  do b <- getBuilder;
  invoke (CallBuildBuildpack ctx out a tag) (ext_buildBuildpack b ctx out a tag).

Definition DeterminePluginType (workspace : string) (j : option JibArtifactT)
  : M (result PluginType) :=
  invoke (CallDeterminePluginType workspace j) (ext_DeterminePluginType workspace j).

Definition buildJibMaven (ctx : Ctx) (out : Writer) (workspace : string)
    (j : option JibArtifactT) (tag : string) : M (result string) :=
  do b <- getBuilder;
  invoke (CallBuildJibMaven ctx out workspace j tag)
         (ext_buildJibMaven b ctx out workspace j tag).

Definition buildJibGradle (ctx : Ctx) (out : Writer) (workspace : string)
    (j : option JibArtifactT) (tag : string) : M (result string) :=
  do b <- getBuilder;
  invoke (CallBuildJibGradle ctx out workspace j tag)
         (ext_buildJibGradle b ctx out workspace j tag).

Definition ImageInspectWithRaw (ctx : Ctx) (tag : string) : M (result ImageInspect) :=
  invoke (CallImageInspectWithRaw ctx tag) (ext_ImageInspectWithRaw ctx tag).

Definition TagWithImageID (ctx : Ctx) (tag imageID : string) : M (result string) :=
  invoke (CallTagWithImageID ctx tag imageID) (ext_TagWithImageID ctx tag imageID).

(** ** local.go *)

(** [func (b *Builder) buildJib] *)
Definition buildJib (ctx : Ctx) (out : Writer) (artifact : Artifact) (tag : string)
  : M (result string) :=
  do '(t, err) <- DeterminePluginType (Workspace artifact) (JibArtifact artifact);
  match err with
  | Some e => ret ("", Some e)
  | None =>
      if decide (t = JibMaven) then
        buildJibMaven ctx out (Workspace artifact) (JibArtifact artifact) tag
      else if decide (t = JibGradle) then
        buildJibGradle ctx out (Workspace artifact) (JibArtifact artifact) tag
      else ret ("", Some (ErrJibBuilderType (Workspace artifact)))
  end.

(** [func (b *Builder) runBuildForArtifact] *)
Definition runBuildForArtifact (ctx : Ctx) (out : Writer) (artifact : Artifact)
    (tag : string) : M (result string) :=
  if notNil (DockerArtifact artifact) then buildDocker ctx out artifact tag
  else if notNil (BazelArtifact artifact) then buildBazel ctx out artifact tag
  else if notNil (JibArtifact artifact) then buildJib ctx out artifact tag
  else if notNil (CustomArtifact artifact) then buildCustom ctx out artifact tag
  else if notNil (BuildpackArtifact artifact) then buildBuildpack ctx out artifact tag
  else ret ("", Some (ErrUndefinedArtifactType (artifactType artifact))).

(** [func (b *Builder) getImageIDForTag] *)
Definition getImageIDForTag (ctx : Ctx) (tag : string) : M (result string) :=
  do '(insp, err) <- ImageInspectWithRaw ctx tag;
  match err with
  | Some e => ret ("", Some (ErrWrap e "inspecting image"))
  | None => ret (ID insp, None)
  end.

Definition inspect_warning : string :=
  "unable to inspect image: built images may not be cleaned up correctly by skaffold".

(** [func (b *Builder) buildArtifact] *)
Definition buildArtifact (ctx : Ctx) (out : Writer) (artifact : Artifact)
    (tag : string) : M (result string) :=
  do '(digestOrImageID, err) <- runBuildForArtifact ctx out artifact tag;
  match err with
  | Some e => ret ("", Some (ErrWrap e "build artifact"))
  | None =>
      do b <- getBuilder;
      if pushImages b then
        run (if notNil (DockerArtifact artifact) then
               do '(imageID, err) <- getImageIDForTag ctx tag;
               run (match err with
                    | Some _ => Warnf inspect_warning
                    | None => ret tt
                    end);
               if bool_decide (imageID <> "") then appendBuiltImage imageID
               else ret tt
             else ret tt);
        let digest := digestOrImageID in
        ret (tag +:+ "@" +:+ digest, None)
      else
        let imageID := digestOrImageID in
        run appendBuiltImage imageID;
        TagWithImageID ctx tag imageID
  end.

(** Modelled from the spec: [build.InSequence] (package build is not part of
    the sources at hand).  Section 4.1: artifacts are built strictly in the
    given order, one at a time, each with the tag assigned to its name; on
    the first failure the remaining artifacts are abandoned and the error is
    returned, together with the ordered results of the artifacts completed
    before it.  A name without a tag reads as Go's map lookup does, giving
    the empty string. *)
Fixpoint InSequence_loop (ctx : Ctx) (out : Writer) (tags : gmap string string)
    (buildArtifact : Ctx -> Writer -> Artifact -> string -> M (result string))
    (builds : list BuildResult) (artifacts : list Artifact)
  : M (result (list BuildResult)) :=
  match artifacts with
  | [] => ret (builds, None)
  | artifact :: rest =>
      let tag := default "" (tags !! ImageName artifact) in
      do '(finalTag, err) <- buildArtifact ctx out artifact tag;
      match err with
      | Some e => ret (builds, Some e)
      | None =>
          InSequence_loop ctx out tags buildArtifact
            (builds ++ [{| res_ImageName := ImageName artifact; res_Tag := finalTag |}])
            rest
      end
  end.

Definition InSequence (ctx : Ctx) (out : Writer) (tags : gmap string string)
    (artifacts : list Artifact)
    (buildArtifact : Ctx -> Writer -> Artifact -> string -> M (result string))
  : M (result (list BuildResult)) :=
  InSequence_loop ctx out tags buildArtifact [] artifacts.

Definition newline : string := String "010"%char "".

(** [func (b *Builder) Build]; the deferred [Close] runs once the sequence
    has returned. *)
Definition Build (ctx : Ctx) (out : Writer) (tags : gmap string string)
    (artifacts : list Artifact) : M (result (list BuildResult)) :=
  do b <- getBuilder;
  run (if localCluster b then
         Fprintf out ("Found [" +:+ kubeContext b
                      +:+ "] context, using local docker daemon." +:+ newline)
       else ret tt);
  do r <- InSequence ctx out tags artifacts buildArtifact;
  run Close;
  ret r.

(** [util.AbsolutePaths]: package util is not part of the sources at hand, so
    the helper is the parameter [ext_AbsolutePaths]. *)
Definition AbsolutePaths (workspace : string) (paths : list string) : list string :=
  ext_AbsolutePaths workspace paths.

(** [func (b *Builder) DependenciesForArtifact]; a [nil] slice is [[]]. *)
Definition DependenciesForArtifact (ctx : Ctx) (a : Artifact)
  : M (result (list string)) :=
  do b <- getBuilder;
  let finish (call : M (result (list string))) : M (result (list string)) :=
    do '(paths, err) <- call;
    match err with
    | Some e => ret ([], Some e)
    | None => ret (AbsolutePaths (Workspace a) paths, None)
    end in
  match DockerArtifact a with
  | Some d =>
      finish (invoke
        (CallDockerGetDependencies ctx (Workspace a) (DockerfilePath d)
           (BuildArgs d) (insecureRegistries b))
        (ext_dockerGetDependencies ctx (Workspace a) (DockerfilePath d)
           (BuildArgs d) (insecureRegistries b)))
  | None =>
  match BazelArtifact a with
  | Some c =>
      finish (invoke (CallBazelGetDependencies ctx (Workspace a) c)
                     (ext_bazelGetDependencies ctx (Workspace a) c))
  | None =>
  match JibArtifact a with
  | Some c =>
      finish (invoke (CallJibGetDependencies ctx (Workspace a) c)
                     (ext_jibGetDependencies ctx (Workspace a) c))
  | None =>
  match CustomArtifact a with
  | Some c =>
      finish (invoke
        (CallCustomGetDependencies ctx (Workspace a) c (insecureRegistries b))
        (ext_customGetDependencies ctx (Workspace a) c (insecureRegistries b)))
  | None =>
  match BuildpackArtifact a with
  | Some c =>
      finish (invoke (CallBuildpacksGetDependencies ctx (Workspace a) c)
                     (ext_buildpacksGetDependencies ctx (Workspace a) c))
  | None => ret ([], Some (ErrUndefinedArtifactType (artifactType a)))
  end end end end end.

(** [func (b *Builder) SyncMap]; a [nil] map is [None]. *)
Definition SyncMap (ctx : Ctx) (a : Artifact)
  : M (result (option (gmap string (list string)))) :=
  match DockerArtifact a with
  | None => ret (None, Some ErrSyncMapNotSupported)
  | Some d =>
      do b <- getBuilder;
      invoke
        (CallDockerSyncMap ctx (Workspace a) (DockerfilePath d) (BuildArgs d)
           (insecureRegistries b))
        (ext_dockerSyncMap ctx (Workspace a) (DockerfilePath d) (BuildArgs d)
           (insecureRegistries b))
  end.

(** ** Vocabulary of the properties *)

(** The five backends, in the order in which the [switch] of
    [runBuildForArtifact] tries them. *)
Inductive Variant : Type := VDocker | VBazel | VJib | VCustom | VBuildpack.

Definition variants : list Variant := [VDocker; VBazel; VJib; VCustom; VBuildpack].

Definition populated (t : ArtifactType) (v : Variant) : bool :=
  match v with
  | VDocker => notNil (DockerArtifact t)
  | VBazel => notNil (BazelArtifact t)
  | VJib => notNil (JibArtifact t)
  | VCustom => notNil (CustomArtifact t)
  | VBuildpack => notNil (BuildpackArtifact t)
  end.

Definition populatedVariants (t : ArtifactType) : list Variant :=
  List.filter (populated t) variants.

(** The build operation of a backend. *)
Definition backend (v : Variant)
  : Ctx -> Writer -> Artifact -> string -> M (result string) :=
  match v with
  | VDocker => buildDocker
  | VBazel => buildBazel
  | VJib => buildJib
  | VCustom => buildCustom
  | VBuildpack => buildBuildpack
  end.

(** The backend a logged call belongs to, for the calls that build. *)
Definition call_variant (c : Call) : option Variant :=
  match c with
  | CallBuildDocker _ _ _ _ => Some VDocker
  | CallBuildBazel _ _ _ _ => Some VBazel
  | CallDeterminePluginType _ _ => Some VJib
  | CallBuildJibMaven _ _ _ _ _ => Some VJib
  | CallBuildJibGradle _ _ _ _ _ => Some VJib
  | CallBuildCustom _ _ _ _ => Some VCustom
  | CallBuildBuildpack _ _ _ _ => Some VBuildpack
  | _ => None
  end.

(** What one run of [buildJib] does, by the answer of the resolver. *)
Inductive buildJib_run ctx out a tag s : result string * State -> Prop :=
| jib_resolver_failed t e w :
    ext_DeterminePluginType (Workspace a) (JibArtifact a) (st_world s) = ((t, Some e), w) ->
    buildJib_run ctx out a tag s
      (("", Some e),
       {| st_builder := st_builder s; st_world := w;
          st_trace := st_trace s ++ [CallDeterminePluginType (Workspace a) (JibArtifact a)] |})
| jib_maven w r w' :
    ext_DeterminePluginType (Workspace a) (JibArtifact a) (st_world s)
      = ((JibMaven, None), w) ->
    ext_buildJibMaven (st_builder s) ctx out (Workspace a) (JibArtifact a) tag w = (r, w') ->
    buildJib_run ctx out a tag s
      (r,
       {| st_builder := st_builder s; st_world := w';
          st_trace := st_trace s ++
            [CallDeterminePluginType (Workspace a) (JibArtifact a);
             CallBuildJibMaven ctx out (Workspace a) (JibArtifact a) tag] |})
| jib_gradle w r w' :
    ext_DeterminePluginType (Workspace a) (JibArtifact a) (st_world s)
      = ((JibGradle, None), w) ->
    ext_buildJibGradle (st_builder s) ctx out (Workspace a) (JibArtifact a) tag w = (r, w') ->
    buildJib_run ctx out a tag s
      (r,
       {| st_builder := st_builder s; st_world := w';
          st_trace := st_trace s ++
            [CallDeterminePluginType (Workspace a) (JibArtifact a);
             CallBuildJibGradle ctx out (Workspace a) (JibArtifact a) tag] |})
| jib_unknown t w :
    ext_DeterminePluginType (Workspace a) (JibArtifact a) (st_world s) = ((t, None), w) ->
    t <> JibMaven -> t <> JibGradle ->
    buildJib_run ctx out a tag s
      (("", Some (ErrJibBuilderType (Workspace a))),
       {| st_builder := st_builder s; st_world := w;
          st_trace := st_trace s ++ [CallDeterminePluginType (Workspace a) (JibArtifact a)] |}).

(** The state in which [Build] starts the sequence: after the line about the
    local cluster, when there is one. *)
Definition afterGreeting (out : Writer) (s : State) : State :=
  if localCluster (st_builder s) then
    snd (Fprintf out ("Found [" +:+ kubeContext (st_builder s)
                      +:+ "] context, using local docker daemon." +:+ newline) s)
  else s.

(** The dependency call of a backend for an artifact whose configuration for
    that backend is set: the logged call and the collaborator behind it, as
    the [switch] of [DependenciesForArtifact] makes it for the builder [b]. *)
Definition depsCall (v : Variant) (ctx : Ctx) (b : Builder) (a : Artifact)
  : option (Call * (World -> result (list string) * World)) :=
  match v with
  | VDocker =>
      match DockerArtifact a with
      | Some d =>
          Some (CallDockerGetDependencies ctx (Workspace a) (DockerfilePath d)
                  (BuildArgs d) (insecureRegistries b),
                ext_dockerGetDependencies ctx (Workspace a) (DockerfilePath d)
                  (BuildArgs d) (insecureRegistries b))
      | None => None
      end
  | VBazel =>
      match BazelArtifact a with
      | Some c =>
          Some (CallBazelGetDependencies ctx (Workspace a) c,
                ext_bazelGetDependencies ctx (Workspace a) c)
      | None => None
      end
  | VJib =>
      match JibArtifact a with
      | Some c =>
          Some (CallJibGetDependencies ctx (Workspace a) c,
                ext_jibGetDependencies ctx (Workspace a) c)
      | None => None
      end
  | VCustom =>
      match CustomArtifact a with
      | Some c =>
          Some (CallCustomGetDependencies ctx (Workspace a) c (insecureRegistries b),
                ext_customGetDependencies ctx (Workspace a) c (insecureRegistries b))
      | None => None
      end
  | VBuildpack =>
      match BuildpackArtifact a with
      | Some c =>
          Some (CallBuildpacksGetDependencies ctx (Workspace a) c,
                ext_buildpacksGetDependencies ctx (Workspace a) c)
      | None => None
      end
  end.

(** What [DependenciesForArtifact] makes of the answer of a backend. *)
Definition depsResult (workspace : string) (r : result (list string))
  : result (list string) :=
  match r with
  | (_, Some e) => ([], Some e)
  | (paths, None) => (AbsolutePaths workspace paths, None)
  end.

(** The tag [Build] hands to the builder of an artifact. *)
Definition tagOf (tags : gmap string string) (a : Artifact) : string :=
  default "" (tags !! ImageName a).

End Model.

Notation "'do' x <- m ; k" := (bind m (fun x => k))
  (at level 10, x binder, m at level 100, k at level 200).
Notation "'run' m ; k" := (bind m (fun _ => k))
  (at level 10, m at level 100, k at level 200).

(** ** A concrete session, to run the model on

    Payloads are strings; the plugin kinds are numbered as Go's [iota] would;
    the world records whether the local daemon can be reached; the path
    helper of the session puts the workspace and the separator in front of
    each path. *)
Module Demo.

#[refine] Definition schema : Schema := {|
  BazelArtifactT := string;
  JibArtifactT := string;
  CustomArtifactT := string;
  BuildpackArtifactT := string;
  Ctx := unit;
  Writer := unit;
  PluginType := nat;
  JibMaven := 0;
  JibGradle := 1
|}.
Proof. discriminate. Defined.

#[local] Existing Instance schema.

(** [context.Background()] and [os.Stdout]. *)
Definition bg : @Ctx schema := tt.
Definition stdout : @Writer schema := tt.

Definition Err := @error schema.
Definition Art := @Artifact schema.

(** The docker backend fails on a Dockerfile called "missing"; the custom
    backend answers with whatever its script (the payload) prints; the
    daemon, when it can be reached, knows every tag but has no identifier
    for the tag "dangling". *)
Definition docker_build (a : Art) : string * option Err :=
  match DockerArtifact a with
  | Some d =>
      if String.eqb (DockerfilePath d) "missing"
      then ("", Some (ErrExternal "no such Dockerfile"))
      else ("sha256:" +:+ ImageName a, None)
  | None => ("", Some (ErrExternal "not a docker artifact"))
  end.

Definition plugin_of (j : option string) : nat * option Err :=
  match j with
  | Some "maven" => (0, None)
  | Some "gradle" => (1, None)
  | Some "ant" => (2, None)
  | _ => (2, Some (ErrExternal "no build file"))
  end.

Definition externals : @Externals schema := {|
  World := bool;
  ext_Fprintf := fun _ _ w => w;
  ext_Warnf := fun _ w => w;
  ext_Close := fun _ => false;
  ext_buildDocker := fun _ _ _ a _ w => (docker_build a, w);
  ext_buildBazel := fun _ _ _ a _ w => (("bazel:" +:+ ImageName a, None), w);
  ext_DeterminePluginType := fun _ j w => (plugin_of j, w);
  ext_buildJibMaven := fun _ _ _ ws _ _ w => (("mvn:" +:+ ws, None), w);
  ext_buildJibGradle := fun _ _ _ ws _ _ w => (("gradle:" +:+ ws, None), w);
  ext_buildCustom := fun _ _ _ a _ w => ((default "" (CustomArtifact a), None), w);
  ext_buildBuildpack := fun _ _ _ a _ w => (("pack:" +:+ ImageName a, None), w);
  ext_ImageInspectWithRaw := fun _ tag (w : bool) =>
    if w then
      if String.eqb tag "dangling" then (({| ID := "" |}, None), w)
      else (({| ID := "id:" +:+ tag |}, None), w)
    else (({| ID := "" |}, Some (ErrExternal "daemon unreachable")), w);
  ext_TagWithImageID := fun _ tag _ w => ((tag, None), w);
  ext_dockerGetDependencies := fun _ _ path _ _ w => (([path; "main.go"], None), w);
  ext_bazelGetDependencies := fun _ _ c w => (([c], None), w);
  ext_jibGetDependencies := fun _ _ _ w => ((["pom.xml"], None), w);
  ext_customGetDependencies := fun _ _ _ _ w => ((["build.sh"], None), w);
  ext_buildpacksGetDependencies := fun _ _ _ w =>
    (([], Some (ErrExternal "no project descriptor")), w);
  ext_dockerSyncMap := fun _ _ path _ _ w =>
    ((Some {[ "/app" := [path] ]}, None), w);
  ext_AbsolutePaths := fun ws paths => map (fun path => ws +:+ "/" +:+ path) paths
|}.

#[local] Existing Instance externals.

Definition noType : @ArtifactType schema :=
  {| DockerArtifact := None; BazelArtifact := None; JibArtifact := None;
     CustomArtifact := None; BuildpackArtifact := None |}.

Definition dockerfile (path : string) : DockerArtifactT :=
  {| DockerfilePath := path; BuildArgs := ∅ |}.

Definition dockerArt (name ws path : string) : Art :=
  {| ImageName := name; Workspace := ws;
     artifactType :=
       {| DockerArtifact := Some (dockerfile path); BazelArtifact := None;
          JibArtifact := None; CustomArtifact := None; BuildpackArtifact := None |} |}.

Definition bazelArt (name ws target : string) : Art :=
  {| ImageName := name; Workspace := ws;
     artifactType :=
       {| DockerArtifact := None; BazelArtifact := Some target;
          JibArtifact := None; CustomArtifact := None; BuildpackArtifact := None |} |}.

Definition jibArt (name ws project : string) : Art :=
  {| ImageName := name; Workspace := ws;
     artifactType :=
       {| DockerArtifact := None; BazelArtifact := None;
          JibArtifact := Some project; CustomArtifact := None;
          BuildpackArtifact := None |} |}.

Definition customArt (name ws script : string) : Art :=
  {| ImageName := name; Workspace := ws;
     artifactType :=
       {| DockerArtifact := None; BazelArtifact := None; JibArtifact := None;
          CustomArtifact := Some script; BuildpackArtifact := None |} |}.

Definition packArt (name ws builderImage : string) : Art :=
  {| ImageName := name; Workspace := ws;
     artifactType :=
       {| DockerArtifact := None; BazelArtifact := None; JibArtifact := None;
          CustomArtifact := None; BuildpackArtifact := Some builderImage |} |}.

Definition emptyArt (name ws : string) : Art :=
  {| ImageName := name; Workspace := ws; artifactType := noType |}.

(** Both the docker and the bazel configuration are set. *)
Definition twoArt (name ws : string) : Art :=
  {| ImageName := name; Workspace := ws;
     artifactType :=
       {| DockerArtifact := Some (dockerfile "Dockerfile");
          BazelArtifact := Some "//:image";
          JibArtifact := None; CustomArtifact := None; BuildpackArtifact := None |} |}.

Definition builder (push : bool) (images : list string) : @Builder :=
  {| localCluster := true; pushImages := push; kubeContext := "minikube";
     insecureRegistries := ∅; builtImages := images |}.

Definition session (push daemon : bool) (images : list string)
  : @State schema externals :=
  {| st_builder := builder push images; st_world := daemon; st_trace := [] |}.

Definition tags : gmap string string :=
  {[ "app" := "gcr.io/p/app:v1"; "db" := "gcr.io/p/db:v1"; "web" := "gcr.io/p/web:v1" ]}.

(** The same collaborators behind a daemon that refuses to tag. *)
Definition externals_locked : @Externals schema := {|
  World := bool;
  ext_Fprintf := fun _ _ w => w;
  ext_Warnf := fun _ w => w;
  ext_Close := fun _ => false;
  ext_buildDocker := fun _ _ _ a _ w => (docker_build a, w);
  ext_buildBazel := fun _ _ _ a _ w => (("bazel:" +:+ ImageName a, None), w);
  ext_DeterminePluginType := fun _ j w => (plugin_of j, w);
  ext_buildJibMaven := fun _ _ _ ws _ _ w => (("mvn:" +:+ ws, None), w);
  ext_buildJibGradle := fun _ _ _ ws _ _ w => (("gradle:" +:+ ws, None), w);
  ext_buildCustom := fun _ _ _ a _ w => ((default "" (CustomArtifact a), None), w);
  ext_buildBuildpack := fun _ _ _ a _ w => (("pack:" +:+ ImageName a, None), w);
  ext_ImageInspectWithRaw := fun _ tag (w : bool) =>
    (({| ID := "id:" +:+ tag |}, None), w);
  ext_TagWithImageID := fun _ _ _ w => (("", Some (ErrExternal "tag refused")), w);
  ext_dockerGetDependencies := fun _ _ path _ _ w => (([path; "main.go"], None), w);
  ext_bazelGetDependencies := fun _ _ c w => (([c], None), w);
  ext_jibGetDependencies := fun _ _ _ w => ((["pom.xml"], None), w);
  ext_customGetDependencies := fun _ _ _ _ w => ((["build.sh"], None), w);
  ext_buildpacksGetDependencies := fun _ _ _ w =>
    (([], Some (ErrExternal "no project descriptor")), w);
  ext_dockerSyncMap := fun _ _ path _ _ w =>
    ((Some {[ "/app" := [path] ]}, None), w);
  ext_AbsolutePaths := fun ws paths => map (fun path => ws +:+ "/" +:+ path) paths
|}.

Definition session_locked (push daemon : bool) (images : list string)
  : @State schema externals_locked :=
  @Build_State schema externals_locked (builder push images) daemon [].

End Demo.

(** * Properties *)

(** Unfolds the logged calls down to [invoke]. *)
Ltac unfold_calls :=
  unfold buildDocker, buildBazel, buildCustom, buildBuildpack, buildJibMaven,
    buildJibGradle, DeterminePluginType, ImageInspectWithRaw, TagWithImageID,
    Fprintf, Warnf, Close, invoke_ in *.

Section Properties.
Context {Sch : Schema} {Ext : Externals}.

Implicit Types (ctx : Ctx) (out : Writer) (a : Artifact) (tag : string)
  (s : State) (e : error).

(** ** The monad and the logged calls *)

Lemma invoke_builder {A} (c : Call) (f : World -> A * World) s :
  st_builder (snd (invoke c f s)) = st_builder s.
Proof. unfold invoke. destruct (f (st_world s)); reflexivity. Qed.

Lemma invoke_trace {A} (c : Call) (f : World -> A * World) s :
  st_trace (snd (invoke c f s)) = st_trace s ++ [c].
Proof. unfold invoke. destruct (f (st_world s)); reflexivity. Qed.

Lemma invoke_fst {A} (c : Call) (f : World -> A * World) s :
  fst (invoke c f s) = fst (f (st_world s)).
Proof. unfold invoke. destruct (f (st_world s)); reflexivity. Qed.

(** ** The plugin resolver of the Jib backend *)

Lemma buildJib_cases ctx out a tag s :
  buildJib_run ctx out a tag s (buildJib ctx out a tag s).
Proof.
  unfold buildJib, DeterminePluginType, bind, invoke.
  destruct (ext_DeterminePluginType _ _ _) as [[t [e|]] w] eqn:Hd; simpl.
  - eapply jib_resolver_failed; eassumption.
  - destruct (decide (t = JibMaven)) as [->|Hm].
    + unfold buildJibMaven, bind, getBuilder, invoke; simpl.
      destruct (ext_buildJibMaven _ _ _ _ _ _ _) as [r w'] eqn:Hb.
      rewrite <- app_assoc. eapply jib_maven; eassumption.
    + destruct (decide (t = JibGradle)) as [->|Hg].
      * unfold buildJibGradle, bind, getBuilder, invoke; simpl.
        destruct (ext_buildJibGradle _ _ _ _ _ _ _) as [r w'] eqn:Hb.
        rewrite <- app_assoc. eapply jib_gradle; eassumption.
      * unfold ret. eapply jib_unknown; eassumption.
Qed.

(** ** The dispatcher *)

(** A backend leaves the builder alone and logs calls of its own only, at
    least one. *)
Lemma backend_effect (v : Variant) ctx out a tag s :
  st_builder (snd (backend v ctx out a tag s)) = st_builder s /\
  exists calls, calls <> [] /\
    st_trace (snd (backend v ctx out a tag s)) = st_trace s ++ calls /\
    Forall (fun c => call_variant c = Some v) calls.
Proof.
  destruct v; simpl;
    try (unfold_calls; unfold bind, getBuilder; simpl;
         rewrite invoke_builder, invoke_trace; split; [reflexivity |];
         eexists; split; [| split; [reflexivity |]];
         [discriminate | repeat constructor]).
  destruct (buildJib_cases ctx out a tag s); simpl; (split; [reflexivity |]);
    eexists; (split; [| split; [reflexivity |]]);
    try discriminate; repeat constructor.
Qed.

(** The [switch] picks the first populated variant. *)
Lemma runBuildForArtifact_first ctx out a tag :
  runBuildForArtifact ctx out a tag =
  match populatedVariants a with
  | v :: _ => backend v ctx out a tag
  | [] => ret ("", Some (ErrUndefinedArtifactType a))
  end.
Proof.
  unfold runBuildForArtifact, populatedVariants.
  destruct a as [name ws [[d|] [b|] [j|] [c|] [p|]]]; reflexivity.
Qed.

Lemma runBuildForArtifact_builder ctx out a tag s :
  st_builder (snd (runBuildForArtifact ctx out a tag s)) = st_builder s.
Proof.
  rewrite runBuildForArtifact_first.
  destruct (populatedVariants a); [reflexivity | apply backend_effect].
Qed.

(** C1 (as the code has it): with at least one variant populated, the
    dispatcher runs the backend of the first populated variant in the order
    of its [switch] (docker, bazel, jib, custom, buildpack) and logs calls of
    that backend only, so with exactly one variant populated it is that
    variant's backend and no other; with no variant populated it calls
    nothing and fails with the "undefined artifact type" error that carries
    the artifact's type. *)
Theorem runBuildForArtifact_dispatch ctx out a tag s :
  (forall v rest, populatedVariants a = v :: rest ->
     runBuildForArtifact ctx out a tag s = backend v ctx out a tag s /\
     exists calls, calls <> [] /\
       st_trace (snd (runBuildForArtifact ctx out a tag s)) = st_trace s ++ calls /\
       Forall (fun c => call_variant c = Some v) calls) /\
  (populatedVariants a = [] ->
     runBuildForArtifact ctx out a tag s
       = (("", Some (ErrUndefinedArtifactType a)), s)).
Proof.
  rewrite runBuildForArtifact_first. split.
  - intros v rest ->. split; [reflexivity | apply backend_effect].
  - intros ->. reflexivity.
Qed.

(** ** The tag resolver *)

Lemma buildArtifact_failed ctx out a tag s x e s1 :
  runBuildForArtifact ctx out a tag s = ((x, Some e), s1) ->
  buildArtifact ctx out a tag s = (("", Some (ErrWrap e "build artifact")), s1).
Proof. intros H. unfold buildArtifact, bind. rewrite H. reflexivity. Qed.

Lemma built_builder ctx out a tag s r s1 :
  runBuildForArtifact ctx out a tag s = (r, s1) -> st_builder s1 = st_builder s.
Proof.
  intros H. pose proof (runBuildForArtifact_builder ctx out a tag s) as Hb.
  now rewrite H in Hb.
Qed.

(** After a successful backend build, [buildArtifact] goes on from the state
    the backend left, by the push mode of the session. *)
Lemma buildArtifact_succeeded ctx out a tag s D s1 :
  runBuildForArtifact ctx out a tag s = ((D, None), s1) ->
  buildArtifact ctx out a tag s =
  if pushImages (st_builder s) then
    (run (if notNil (DockerArtifact a) then
            do '(imageID, err) <- getImageIDForTag ctx tag;
            run (match err with
                 | Some _ => Warnf inspect_warning
                 | None => ret tt
                 end);
            if bool_decide (imageID <> "") then appendBuiltImage imageID
            else ret tt
          else ret tt);
     ret (tag +:+ "@" +:+ D, None)) s1
  else
    (run appendBuiltImage D; TagWithImageID ctx tag D) s1.
Proof.
  intros Hrun. pose proof (built_builder _ _ _ _ _ _ _ Hrun) as Hb.
  unfold buildArtifact. unfold bind at 1. rewrite Hrun.
  unfold bind at 1. unfold getBuilder. rewrite Hb.
  now destruct (pushImages (st_builder s)).
Qed.

(** In push mode the reference is made of the tag and the digest, and at
    most one identifier, never empty, joins the built images; none at all
    unless the artifact is a docker one. *)
Lemma buildArtifact_push ctx out a tag s D s1 :
  pushImages (st_builder s) = true ->
  runBuildForArtifact ctx out a tag s = ((D, None), s1) ->
  fst (buildArtifact ctx out a tag s) = (tag +:+ "@" +:+ D, None) /\
  exists ids,
    builtImages (st_builder (snd (buildArtifact ctx out a tag s)))
      = builtImages (st_builder s) ++ ids /\
    length ids <= 1 /\
    Forall (fun id => id <> "") ids /\
    (DockerArtifact a = None -> ids = []).
Proof.
  intros Hpush Hrun. pose proof (built_builder _ _ _ _ _ _ _ Hrun) as Hb.
  rewrite (buildArtifact_succeeded _ _ _ _ _ _ _ Hrun), Hpush. rewrite <- Hb.
  destruct (DockerArtifact a) as [d|] eqn:Hd; cbn [notNil].
  - unfold getImageIDForTag, ImageInspectWithRaw, bind, invoke.
    destruct (ext_ImageInspectWithRaw ctx tag (st_world s1)) as [[insp [e|]] w].
    + unfold ret, Warnf, invoke_, invoke; simpl.
      split; [reflexivity |]. exists []. rewrite app_nil_r.
      split; [reflexivity |]. split; [simpl; lia |]. split; [constructor | trivial].
    + unfold ret; simpl. case_bool_decide as Hid; simpl.
      * split; [reflexivity |]. exists [ID insp].
        split; [reflexivity |]. split; [simpl; lia |].
        split; [repeat constructor; exact Hid | intros H; discriminate H].
      * split; [reflexivity |]. exists []. rewrite app_nil_r.
        split; [reflexivity |]. split; [simpl; lia |]. split; [constructor | trivial].
  - unfold bind, ret; simpl. split; [reflexivity |]. exists [].
    rewrite app_nil_r.
    split; [reflexivity |]. split; [simpl; lia |]. split; [constructor | trivial].
Qed.

(** C3: in push mode, a backend that succeeds with the raw result [D] makes
    [buildArtifact] succeed with the reference [tag@D]. *)
Theorem buildArtifact_push_reference ctx out a tag D s s1 :
  pushImages (st_builder s) = true ->
  runBuildForArtifact ctx out a tag s = ((D, None), s1) ->
  fst (buildArtifact ctx out a tag s) = (tag +:+ "@" +:+ D, None).
Proof. intros Hpush Hrun. now apply (buildArtifact_push ctx out a tag s D s1). Qed.

(** C4: out of push mode, a backend that succeeds with the identifier [I]
    gets exactly one [I] appended to the built images, whatever the variant,
    and the result of [buildArtifact] is the result of the docker client's
    [TagWithImageID] for the tag and [I], called right after the backend. *)
Theorem buildArtifact_local_reference ctx out a tag I s s1 :
  pushImages (st_builder s) = false ->
  runBuildForArtifact ctx out a tag s = ((I, None), s1) ->
  builtImages (st_builder (snd (buildArtifact ctx out a tag s)))
    = builtImages (st_builder s) ++ [I] /\
  fst (buildArtifact ctx out a tag s)
    = fst (ext_TagWithImageID ctx tag I (st_world s1)) /\
  st_trace (snd (buildArtifact ctx out a tag s))
    = st_trace s1 ++ [CallTagWithImageID ctx tag I].
Proof.
  intros Hpush Hrun. pose proof (built_builder _ _ _ _ _ _ _ Hrun) as Hb.
  rewrite (buildArtifact_succeeded _ _ _ _ _ _ _ Hrun), Hpush. rewrite <- Hb.
  unfold bind, appendBuiltImage, TagWithImageID.
  rewrite invoke_builder, invoke_trace, invoke_fst. now simpl.
Qed.

(** C5: in push mode, for a docker artifact whose build succeeds, a failing
    inspection of the tag leaves [buildArtifact] successful with the
    reference [tag@D] and leaves the built images as they were. *)
Theorem buildArtifact_inspection_failure ctx out a tag D s s1 insp e w :
  pushImages (st_builder s) = true ->
  DockerArtifact a <> None ->
  runBuildForArtifact ctx out a tag s = ((D, None), s1) ->
  ext_ImageInspectWithRaw ctx tag (st_world s1) = ((insp, Some e), w) ->
  fst (buildArtifact ctx out a tag s) = (tag +:+ "@" +:+ D, None) /\
  builtImages (st_builder (snd (buildArtifact ctx out a tag s)))
    = builtImages (st_builder s).
Proof.
  intros Hpush Hd Hrun Hinsp. pose proof (built_builder _ _ _ _ _ _ _ Hrun) as Hb.
  rewrite (buildArtifact_succeeded _ _ _ _ _ _ _ Hrun), Hpush. rewrite <- Hb.
  destruct (DockerArtifact a) as [d|]; [| contradiction]. cbn [notNil].
  unfold getImageIDForTag, ImageInspectWithRaw, bind, invoke. rewrite Hinsp.
  unfold ret, Warnf, invoke_, invoke; now simpl.
Qed.

Lemma buildArtifact_failed_images ctx out a tag s x e s1 :
  runBuildForArtifact ctx out a tag s = ((x, Some e), s1) ->
  fst (buildArtifact ctx out a tag s) = ("", Some (ErrWrap e "build artifact")) /\
  builtImages (st_builder (snd (buildArtifact ctx out a tag s)))
    = builtImages (st_builder s).
Proof.
  intros Hrun. rewrite (buildArtifact_failed _ _ _ _ _ _ _ _ Hrun). simpl.
  split; [reflexivity |]. now rewrite (built_builder _ _ _ _ _ _ _ Hrun).
Qed.

(** C9: when the backend build fails, [buildArtifact] returns the empty
    reference with the error wrapped as "build artifact", and the built
    images are what they were before the call. *)
Theorem buildArtifact_backend_failure ctx out a tag s x e s1 :
  runBuildForArtifact ctx out a tag s = ((x, Some e), s1) ->
  fst (buildArtifact ctx out a tag s) = ("", Some (ErrWrap e "build artifact")) /\
  builtImages (st_builder (snd (buildArtifact ctx out a tag s)))
    = builtImages (st_builder s).
Proof. apply buildArtifact_failed_images. Qed.

(** C10 (as the code has it): in push mode every identifier that
    [buildArtifact] appends is non-empty, and an inspection that succeeds
    with an empty identifier appends nothing; so [buildArtifact] keeps the
    empty string out of the built images in push mode, and out of push mode
    whenever the backend does not succeed with the empty identifier (which is
    appended there without a test). *)
Theorem builtImages_without_empty ctx out a tag s :
  (forall D s1 insp w,
     pushImages (st_builder s) = true ->
     runBuildForArtifact ctx out a tag s = ((D, None), s1) ->
     ext_ImageInspectWithRaw ctx tag (st_world s1) = ((insp, None), w) ->
     ID insp = "" ->
     builtImages (st_builder (snd (buildArtifact ctx out a tag s)))
       = builtImages (st_builder s)) /\
  (~ In "" (builtImages (st_builder s)) ->
   (pushImages (st_builder s) = true \/
    forall s1, runBuildForArtifact ctx out a tag s <> (("", None), s1)) ->
   ~ In "" (builtImages (st_builder (snd (buildArtifact ctx out a tag s))))).
Proof.
  split.
  - intros D s1 insp w Hpush Hrun Hinsp Hid.
    pose proof (built_builder _ _ _ _ _ _ _ Hrun) as Hb.
    rewrite (buildArtifact_succeeded _ _ _ _ _ _ _ Hrun), Hpush. rewrite <- Hb.
    destruct (DockerArtifact a) as [d|]; cbn [notNil]; [| reflexivity].
    unfold getImageIDForTag, ImageInspectWithRaw, bind, invoke. rewrite Hinsp.
    unfold ret; simpl. rewrite Hid. reflexivity.
  - intros Hinv Hside.
    destruct (runBuildForArtifact ctx out a tag s) as [[D [e|]] s1] eqn:Hrun.
    + destruct (buildArtifact_failed_images ctx out a tag s D e s1 Hrun) as [_ ->].
      exact Hinv.
    + destruct (pushImages (st_builder s)) eqn:Hpush.
      * destruct (buildArtifact_push ctx out a tag s D s1 Hpush Hrun)
          as (_ & ids & -> & _ & Hids & _).
        rewrite in_app_iff. intros [H|H]; [exact (Hinv H) |].
        rewrite Forall_forall in Hids. apply list_elem_of_In in H.
        exact (Hids _ H eq_refl).
      * destruct Hside as [H|Hne]; [discriminate H |].
        pose proof (built_builder _ _ _ _ _ _ _ Hrun) as Hb.
        rewrite (buildArtifact_succeeded _ _ _ _ _ _ _ Hrun), Hpush.
        unfold bind, appendBuiltImage, TagWithImageID.
        rewrite invoke_builder. simpl. rewrite Hb, in_app_iff.
        intros [H|[H|[]]]; [exact (Hinv H) |].
        subst D. exact (Hne s1 eq_refl).
Qed.

(** ** The Jib backend *)

(** C8: [buildJib] first asks the resolver for the plugin kind of the
    workspace; on Maven, resp. Gradle, it makes the Maven, resp. Gradle,
    build call with the same context, sink, workspace, configuration and
    tag, and returns its result; when the resolver names neither kind it
    makes no build call and fails with the error that carries the workspace;
    when the resolver itself fails it makes no build call and returns its
    error. *)
Theorem buildJib_routes ctx out a tag s :
  let ws := Workspace a in
  let j := JibArtifact a in
  let resolve := CallDeterminePluginType ws j in
  (forall w r w',
     ext_DeterminePluginType ws j (st_world s) = ((JibMaven, None), w) ->
     ext_buildJibMaven (st_builder s) ctx out ws j tag w = (r, w') ->
     fst (buildJib ctx out a tag s) = r /\
     st_trace (snd (buildJib ctx out a tag s))
       = st_trace s ++ [resolve; CallBuildJibMaven ctx out ws j tag]) /\
  (forall w r w',
     ext_DeterminePluginType ws j (st_world s) = ((JibGradle, None), w) ->
     ext_buildJibGradle (st_builder s) ctx out ws j tag w = (r, w') ->
     fst (buildJib ctx out a tag s) = r /\
     st_trace (snd (buildJib ctx out a tag s))
       = st_trace s ++ [resolve; CallBuildJibGradle ctx out ws j tag]) /\
  (forall t w,
     ext_DeterminePluginType ws j (st_world s) = ((t, None), w) ->
     t <> JibMaven -> t <> JibGradle ->
     fst (buildJib ctx out a tag s) = ("", Some (ErrJibBuilderType ws)) /\
     st_trace (snd (buildJib ctx out a tag s)) = st_trace s ++ [resolve]) /\
  (forall t e w,
     ext_DeterminePluginType ws j (st_world s) = ((t, Some e), w) ->
     fst (buildJib ctx out a tag s) = ("", Some e) /\
     st_trace (snd (buildJib ctx out a tag s)) = st_trace s ++ [resolve]).
Proof.
  intros ws j resolve. subst ws j resolve.
  pose proof JibMaven_neq_JibGradle as Hne.
  repeat split; intros;
    destruct (buildJib_cases ctx out a tag s); simpl; congruence.
Qed.

(** ** The sync map *)

(** C6: without a docker configuration [SyncMap] fails with
    [ErrSyncMapNotSupported], calling nothing; with one it returns what
    [docker.SyncMap] returns, mapping and error alike. *)
Theorem SyncMap_docker_only ctx a s :
  (DockerArtifact a = None ->
     SyncMap ctx a s = ((None, Some ErrSyncMapNotSupported), s)) /\
  (forall d, DockerArtifact a = Some d ->
     fst (SyncMap ctx a s)
       = fst (ext_dockerSyncMap ctx (Workspace a) (DockerfilePath d) (BuildArgs d)
                (insecureRegistries (st_builder s)) (st_world s)) /\
     st_trace (snd (SyncMap ctx a s))
       = st_trace s ++ [CallDockerSyncMap ctx (Workspace a) (DockerfilePath d)
                          (BuildArgs d) (insecureRegistries (st_builder s))]).
Proof.
  unfold SyncMap. split.
  - intros ->. reflexivity.
  - intros d ->. unfold bind, getBuilder.
    now rewrite invoke_fst, invoke_trace.
Qed.

(** ** The build coordinator *)

Section Sequence.
Variables (ctx : Ctx) (out : Writer) (tags : gmap string string).
Variable builder : Ctx -> Writer -> Artifact -> string -> M (result string).

(** The loop over a list in two parts: the second part runs only if the
    first went through. *)
Lemma InSequence_loop_app (pre rest : list Artifact) :
  forall (builds : list BuildResult) s,
  InSequence_loop ctx out tags builder builds (pre ++ rest) s =
  match InSequence_loop ctx out tags builder builds pre s with
  | ((builds', None), s1) => InSequence_loop ctx out tags builder builds' rest s1
  | ((builds', Some e), s1) => ((builds', Some e), s1)
  end.
Proof.
  induction pre as [|a pre IH]; intros builds s; [reflexivity |].
  cbn [InSequence_loop app]. unfold bind.
  destruct (builder ctx out a _ s) as [[finalTag [e|]] s1]; [reflexivity |].
  apply IH.
Qed.

(** A loop that went through added one result per artifact, in order. *)
Lemma InSequence_loop_results (l : list Artifact) :
  forall (builds builds' : list BuildResult) s s',
  InSequence_loop ctx out tags builder builds l s = ((builds', None), s') ->
  exists new, builds' = builds ++ new /\
    map res_ImageName new = map ImageName l.
Proof.
  induction l as [|a l IH]; intros builds builds' s s'.
  - cbn [InSequence_loop]. unfold ret. intros H; inversion H; subst.
    exists []. now rewrite app_nil_r.
  - cbn [InSequence_loop]. unfold bind.
    destruct (builder ctx out a _ s) as [[finalTag [e|]] s1].
    + unfold ret. intros H; inversion H.
    + intros H. apply IH in H. destruct H as (new & -> & Hnames).
      eexists (_ :: new). rewrite <- app_assoc. split; [reflexivity |].
      cbn [map]. now rewrite Hnames.
Qed.

End Sequence.

Lemma Build_unfold ctx out (tags : gmap string string) (artifacts : list Artifact) s :
  Build ctx out tags artifacts s =
  (fst (InSequence ctx out tags artifacts buildArtifact (afterGreeting out s)),
   snd (Close (snd (InSequence ctx out tags artifacts buildArtifact
                      (afterGreeting out s))))).
Proof.
  unfold Build, afterGreeting. unfold bind at 1. unfold getBuilder.
  destruct (localCluster (st_builder s)).
  - unfold bind at 1. destruct (Fprintf out _ s) as [[] s0]. cbn [snd].
    unfold bind. destruct (InSequence _ _ _ _ _ s0) as [r s1]. cbn [fst snd].
    now destruct (Close s1) as [[] s2].
  - unfold bind at 1. unfold ret at 1.
    unfold bind. destruct (InSequence _ _ _ _ _ s) as [r s1]. cbn [fst snd].
    now destruct (Close s1) as [[] s2].
Qed.

(** C2: when the artifacts before [a] build and the backend of [a] fails
    with [e], [Build] returns the results of the artifacts before [a], one
    per artifact in their order, with [e] wrapped as "build artifact"; the
    only call it makes after the failed one is the [Close] of the docker
    client, whatever artifacts follow [a]. *)
Theorem Build_stops_at_first_failure ctx out (tags : gmap string string)
    (pre post : list Artifact) a s results s1 x e s2 :
  InSequence ctx out tags pre buildArtifact (afterGreeting out s)
    = ((results, None), s1) ->
  runBuildForArtifact ctx out a (tagOf tags a) s1 = ((x, Some e), s2) ->
  fst (Build ctx out tags (pre ++ a :: post) s)
    = (results, Some (ErrWrap e "build artifact")) /\
  map res_ImageName results = map ImageName pre /\
  st_trace (snd (Build ctx out tags (pre ++ a :: post) s))
    = st_trace s2 ++ [CallClose] /\
  builtImages (st_builder (snd (Build ctx out tags (pre ++ a :: post) s)))
    = builtImages (st_builder s1).
Proof.
  intros Hpre Hrun. unfold InSequence in Hpre.
  assert (Hseq : InSequence ctx out tags (pre ++ a :: post) buildArtifact
                   (afterGreeting out s)
                 = ((results, Some (ErrWrap e "build artifact")), s2)).
  { unfold InSequence. rewrite InSequence_loop_app, Hpre.
    cbn [InSequence_loop]. unfold bind. fold (tagOf tags a).
    now rewrite (buildArtifact_failed _ _ _ _ _ _ _ _ Hrun). }
  rewrite Build_unfold, Hseq. cbn [fst snd].
  split; [reflexivity |]. split.
  - destruct (InSequence_loop_results _ _ _ _ _ _ _ _ _ Hpre) as (new & -> & Hn).
    exact Hn.
  - unfold Close, invoke_. rewrite invoke_trace, invoke_builder.
    split; [reflexivity |]. now rewrite (built_builder _ _ _ _ _ _ _ Hrun).
Qed.

End Properties.

(** * Further properties of local.go *)

Section MoreProperties.
Context {Sch : Schema} {Ext : Externals}.

Implicit Types (ctx : Ctx) (out : Writer) (a : Artifact) (tag : string)
  (s : State) (e : error).

(** ** Dependencies *)

(** The artifacts by their first populated variant. *)
Lemma populatedVariants_cases a :
  (populatedVariants a = [] /\
   DockerArtifact a = None /\ BazelArtifact a = None /\ JibArtifact a = None /\
   CustomArtifact a = None /\ BuildpackArtifact a = None) \/
  (exists d rest, populatedVariants a = VDocker :: rest /\ DockerArtifact a = Some d) \/
  (exists c rest, populatedVariants a = VBazel :: rest /\
     DockerArtifact a = None /\ BazelArtifact a = Some c) \/
  (exists c rest, populatedVariants a = VJib :: rest /\
     DockerArtifact a = None /\ BazelArtifact a = None /\ JibArtifact a = Some c) \/
  (exists c rest, populatedVariants a = VCustom :: rest /\
     DockerArtifact a = None /\ BazelArtifact a = None /\ JibArtifact a = None /\
     CustomArtifact a = Some c) \/
  (exists c rest, populatedVariants a = VBuildpack :: rest /\
     DockerArtifact a = None /\ BazelArtifact a = None /\ JibArtifact a = None /\
     CustomArtifact a = None /\ BuildpackArtifact a = Some c).
Proof.
  destruct a as [name ws [[d|] [b|] [j|] [c|] [p|]]]; cbn;
    first [ left; repeat split; reflexivity
          | right; left; eexists _, _; repeat split; reflexivity
          | right; right; left; eexists _, _; repeat split; reflexivity
          | right; right; right; left; eexists _, _; repeat split; reflexivity
          | right; right; right; right; left; eexists _, _; repeat split; reflexivity
          | right; right; right; right; right; eexists _, _; repeat split; reflexivity ].
Qed.

(** One run of [DependenciesForArtifact] through a backend. *)
Lemma DependenciesForArtifact_through ctx a s v rest :
  populatedVariants a = v :: rest ->
  exists c f,
    depsCall v ctx (st_builder s) a = Some (c, f) /\
    DependenciesForArtifact ctx a s =
      (depsResult (Workspace a) (fst (f (st_world s))),
       {| st_builder := st_builder s;
          st_world := snd (f (st_world s));
          st_trace := st_trace s ++ [c] |}).
Proof.
  intros Hv.
  destruct (populatedVariants_cases a)
    as [(H & _) | [(d & r & H & Hd) | [(c & r & H & Hd & Hb)
       | [(c & r & H & Hd & Hb & Hj) | [(c & r & H & Hd & Hb & Hj & Hc)
       | (c & r & H & Hd & Hb & Hj & Hc & Hp)]]]]];
    rewrite H in Hv; [discriminate Hv | | | | |];
    injection Hv as <- _; unfold depsCall, DependenciesForArtifact;
    unfold bind at 1; unfold getBuilder;
    rewrite ?Hd, ?Hb, ?Hj, ?Hc, ?Hp;
    eexists _, _; (split; [reflexivity |]);
    unfold bind, invoke, ret, depsResult;
    match goal with
    | |- context [ let (_, _) := ?g (st_world s) in _ ] =>
        destruct (g (st_world s)) as [[raw [e|]] w]
    end; reflexivity.
Qed.

Lemma DependenciesForArtifact_no_variant ctx a s :
  populatedVariants a = [] ->
  DependenciesForArtifact ctx a s
    = (([], Some (ErrUndefinedArtifactType a)), s).
Proof.
  intros Hv.
  destruct (populatedVariants_cases a)
    as [(_ & Hd & Hb & Hj & Hc & Hp) | [(d & r & H & _) | [(c & r & H & _)
       | [(c & r & H & _) | [(c & r & H & _) | (c & r & H & _)]]]]];
    try (rewrite H in Hv; discriminate Hv).
  unfold DependenciesForArtifact. unfold bind, getBuilder.
  now rewrite Hd, Hb, Hj, Hc, Hp.
Qed.

(** X1: without any variant [DependenciesForArtifact] fails with the
    "undefined artifact type" error and a nil list, and calls nothing. *)
Theorem DependenciesForArtifact_undefined_type ctx a s :
  populatedVariants a = [] ->
  DependenciesForArtifact ctx a s
    = (([], Some (ErrUndefinedArtifactType a)), s).
Proof. apply DependenciesForArtifact_no_variant. Qed.

(** X2: with some variant populated, [DependenciesForArtifact] makes
    exactly one call, the dependency call of the first populated variant in
    the order of the [switch] (the order in which [runBuildForArtifact]
    picks the backend that builds); it is no build call, and the builder is
    left as it was. *)
Theorem DependenciesForArtifact_routes ctx out a tag s v rest :
  populatedVariants a = v :: rest ->
  runBuildForArtifact ctx out a tag = backend v ctx out a tag /\
  exists c f,
    depsCall v ctx (st_builder s) a = Some (c, f) /\
    call_variant c = None /\
    st_trace (snd (DependenciesForArtifact ctx a s)) = st_trace s ++ [c] /\
    st_world (snd (DependenciesForArtifact ctx a s)) = snd (f (st_world s)) /\
    st_builder (snd (DependenciesForArtifact ctx a s)) = st_builder s.
Proof.
  intros Hv. split.
  - now rewrite runBuildForArtifact_first, Hv.
  - destruct (DependenciesForArtifact_through ctx a s v rest Hv) as (c & f & Hc & ->).
    exists c, f. split; [exact Hc |]. cbn [snd st_trace st_world st_builder].
    split; [| now repeat split].
    unfold depsCall in Hc.
    destruct v;
      match type of Hc with
      | match ?o with Some _ => _ | None => _ end = _ =>
          destruct o; [injection Hc as <- _; reflexivity | discriminate Hc]
      end.
Qed.

(** X3: an error of [DependenciesForArtifact] always comes with a nil list,
    and it is either the "undefined artifact type" error of an artifact
    without variant, raised without any call, or the very error the
    dependency call of the first populated variant returned, not wrapped. *)
Theorem DependenciesForArtifact_error ctx a s paths e s' :
  DependenciesForArtifact ctx a s = ((paths, Some e), s') ->
  paths = [] /\
  ((populatedVariants a = [] /\ e = ErrUndefinedArtifactType a /\ s' = s) \/
   (exists v rest c f raw,
      populatedVariants a = v :: rest /\
      depsCall v ctx (st_builder s) a = Some (c, f) /\
      fst (f (st_world s)) = (raw, Some e))).
Proof.
  intros Hdeps. destruct (populatedVariants a) as [|v rest] eqn:Hv.
  - rewrite (DependenciesForArtifact_no_variant ctx a s Hv) in Hdeps.
    injection Hdeps as <- <- <-. split; [reflexivity |]. left. now repeat split.
  - destruct (DependenciesForArtifact_through ctx a s v rest Hv) as (c & f & Hc & Hrun).
    rewrite Hrun in Hdeps. unfold depsResult in Hdeps.
    destruct (fst (f (st_world s))) as [raw [e0|]] eqn:Hf.
    + injection Hdeps as <- <- _. split; [reflexivity |].
      right. exists v, rest, c, f, raw. now repeat split.
    + injection Hdeps as _ H _. discriminate H.
Qed.

(** X17: a successful [DependenciesForArtifact] has asked the dependency
    call of the first populated variant, once, and returns what
    [util.AbsolutePaths] makes of the artifact's own workspace and the paths
    that call answered. *)
Theorem DependenciesForArtifact_success ctx a s paths s' :
  DependenciesForArtifact ctx a s = ((paths, None), s') ->
  exists v rest c f raw,
    populatedVariants a = v :: rest /\
    depsCall v ctx (st_builder s) a = Some (c, f) /\
    fst (f (st_world s)) = (raw, None) /\
    paths = AbsolutePaths (Workspace a) raw /\
    st_trace s' = st_trace s ++ [c].
Proof.
  intros Hdeps. destruct (populatedVariants a) as [|v rest] eqn:Hv.
  - rewrite (DependenciesForArtifact_no_variant ctx a s Hv) in Hdeps.
    injection Hdeps as _ H _. discriminate H.
  - destruct (DependenciesForArtifact_through ctx a s v rest Hv) as (c & f & Hc & Hrun).
    rewrite Hrun in Hdeps. unfold depsResult in Hdeps.
    destruct (fst (f (st_world s))) as [raw [e0|]] eqn:Hf.
    + injection Hdeps as _ H _. discriminate H.
    + injection Hdeps as <- <-. exists v, rest, c, f, raw. now repeat split.
Qed.

(** ** The tag resolver *)

(** X4: for an artifact without variant, [buildArtifact] returns the empty
    reference and the "undefined artifact type" error wrapped as "build
    artifact", in either mode, without any call or change of state. *)
Theorem buildArtifact_undefined_type ctx out a tag s :
  populatedVariants a = [] ->
  buildArtifact ctx out a tag s
    = (("", Some (ErrWrap (ErrUndefinedArtifactType a) "build artifact")), s).
Proof.
  intros Hv. apply (buildArtifact_failed ctx out a tag s "").
  now rewrite runBuildForArtifact_first, Hv.
Qed.

(** X5: in push mode, for an artifact without docker configuration (built
    straight to the registry), [buildArtifact] stops where the backend
    stopped: no inspection, no warning, no re-tagging, and the built images
    are not touched. *)
Theorem buildArtifact_push_not_docker ctx out a tag D s s1 :
  pushImages (st_builder s) = true ->
  DockerArtifact a = None ->
  runBuildForArtifact ctx out a tag s = ((D, None), s1) ->
  buildArtifact ctx out a tag s = ((tag +:+ "@" +:+ D, None), s1).
Proof.
  intros Hpush Hd Hrun.
  rewrite (buildArtifact_succeeded _ _ _ _ _ _ _ Hrun), Hpush, Hd.
  reflexivity.
Qed.

(** X6: in push mode, for a docker artifact, an inspection that succeeds
    with a non-empty identifier gets that identifier (not the digest)
    appended to the built images; the inspection of the tag is the only call
    after the backend, and no warning is logged. *)
Theorem buildArtifact_push_tracks_inspected ctx out a tag D s s1 insp w :
  pushImages (st_builder s) = true ->
  DockerArtifact a <> None ->
  runBuildForArtifact ctx out a tag s = ((D, None), s1) ->
  ext_ImageInspectWithRaw ctx tag (st_world s1) = ((insp, None), w) ->
  ID insp <> "" ->
  buildArtifact ctx out a tag s =
    ((tag +:+ "@" +:+ D, None),
     {| st_builder :=
          set_builtImages (builtImages (st_builder s) ++ [ID insp]) (st_builder s);
        st_world := w;
        st_trace := st_trace s1 ++ [CallImageInspectWithRaw ctx tag] |}).
Proof.
  intros Hpush Hd Hrun Hinsp Hid.
  pose proof (built_builder _ _ _ _ _ _ _ Hrun) as Hb.
  rewrite (buildArtifact_succeeded _ _ _ _ _ _ _ Hrun), Hpush. rewrite <- Hb.
  destruct (DockerArtifact a) as [d|]; [| contradiction]. cbn [notNil].
  unfold getImageIDForTag, ImageInspectWithRaw, bind, invoke. rewrite Hinsp.
  unfold ret. cbn [fst snd]. rewrite bool_decide_eq_true_2 by exact Hid.
  reflexivity.
Qed.

(** X7: in push mode, for a docker artifact, a failing inspection is
    followed by one warning, the fixed message about cleanup, and by nothing
    else; the builder is left as the backend left it. *)
Theorem buildArtifact_push_warns ctx out a tag D s s1 insp e w :
  pushImages (st_builder s) = true ->
  DockerArtifact a <> None ->
  runBuildForArtifact ctx out a tag s = ((D, None), s1) ->
  ext_ImageInspectWithRaw ctx tag (st_world s1) = ((insp, Some e), w) ->
  buildArtifact ctx out a tag s =
    ((tag +:+ "@" +:+ D, None),
     {| st_builder := st_builder s;
        st_world := ext_Warnf inspect_warning w;
        st_trace := st_trace s1 ++
          [CallImageInspectWithRaw ctx tag; CallWarnf inspect_warning] |}).
Proof.
  intros Hpush Hd Hrun Hinsp.
  pose proof (built_builder _ _ _ _ _ _ _ Hrun) as Hb.
  rewrite (buildArtifact_succeeded _ _ _ _ _ _ _ Hrun), Hpush. rewrite <- Hb.
  destruct (DockerArtifact a) as [d|]; [| contradiction]. cbn [notNil].
  unfold getImageIDForTag, ImageInspectWithRaw, bind, invoke. rewrite Hinsp.
  unfold ret, Warnf, invoke_, invoke. cbn. now rewrite <- app_assoc.
Qed.

Lemma set_builtImages_same (b : Builder) : set_builtImages (builtImages b ++ []) b = b.
Proof. destruct b. unfold set_builtImages. cbn. now rewrite app_nil_r. Qed.

(** What [buildArtifact] does after the backend, on every path: the calls it
    adds and the identifiers it appends. *)
Lemma buildArtifact_after_backend ctx out a tag s :
  exists post ids,
    st_trace (snd (buildArtifact ctx out a tag s))
      = st_trace (snd (runBuildForArtifact ctx out a tag s)) ++ post /\
    st_builder (snd (buildArtifact ctx out a tag s))
      = set_builtImages (builtImages (st_builder s) ++ ids) (st_builder s) /\
    length ids <= 1 /\
    if pushImages (st_builder s) then
      post = [] \/
      (DockerArtifact a <> None /\
       (post = [CallImageInspectWithRaw ctx tag] \/
        post = [CallImageInspectWithRaw ctx tag; CallWarnf inspect_warning]))
    else
      (post = [] /\ ids = []) \/
      (exists I, post = [CallTagWithImageID ctx tag I] /\ ids = [I]).
Proof.
  destruct (runBuildForArtifact ctx out a tag s) as [[D [e|]] s1] eqn:Hrun;
    pose proof (built_builder _ _ _ _ _ _ _ Hrun) as Hb.
  - rewrite (buildArtifact_failed _ _ _ _ _ _ _ _ Hrun). cbn [snd].
    exists [], []. rewrite app_nil_r, set_builtImages_same, Hb.
    split; [reflexivity |]. split; [reflexivity |]. split; [cbn; lia |].
    destruct (pushImages (st_builder s)); left; [reflexivity | now split].
  - rewrite (buildArtifact_succeeded _ _ _ _ _ _ _ Hrun). cbn [snd].
    destruct (pushImages (st_builder s)) eqn:Hpush.
    + rewrite <- Hb. destruct (DockerArtifact a) as [d|] eqn:Hd; cbn [notNil].
      * unfold getImageIDForTag, ImageInspectWithRaw, bind, invoke.
        destruct (ext_ImageInspectWithRaw ctx tag (st_world s1)) as [[insp [e|]] w].
        -- unfold ret, Warnf, invoke_, invoke. cbn.
           exists [CallImageInspectWithRaw ctx tag; CallWarnf inspect_warning], [].
           rewrite set_builtImages_same, <- app_assoc.
           split; [reflexivity |]. split; [reflexivity |]. split; [cbn; lia |].
           right. split; [discriminate | now right].
        -- unfold ret. cbn [fst snd]. case_bool_decide as Hid; cbn.
           ++ exists [CallImageInspectWithRaw ctx tag], [ID insp].
              split; [reflexivity |]. split; [reflexivity |]. split; [cbn; lia |].
              right. split; [discriminate | now left].
           ++ exists [CallImageInspectWithRaw ctx tag], [].
              rewrite set_builtImages_same.
              split; [reflexivity |]. split; [reflexivity |]. split; [cbn; lia |].
              right. split; [discriminate | now left].
      * unfold bind, ret. cbn. exists [], [].
        rewrite app_nil_r, set_builtImages_same.
        split; [reflexivity |]. split; [reflexivity |]. split; [cbn; lia |].
        now left.
    + unfold bind, appendBuiltImage, TagWithImageID.
      rewrite invoke_trace, invoke_builder. cbn. rewrite Hb.
      exists [CallTagWithImageID ctx tag D], [D].
      split; [reflexivity |]. split; [reflexivity |]. split; [cbn; lia |].
      right. exists D. now split.
Qed.

(** X8: the built images are append-only under [buildArtifact]: on every
    path the new list is the old one followed by at most one identifier, and
    the other fields of the builder are unchanged. *)
Theorem buildArtifact_append_only ctx out a tag s :
  exists ids,
    st_builder (snd (buildArtifact ctx out a tag s))
      = set_builtImages (builtImages (st_builder s) ++ ids) (st_builder s) /\
    length ids <= 1.
Proof.
  destruct (buildArtifact_after_backend ctx out a tag s)
    as (post & ids & _ & Hb & Hlen & _).
  now exists ids.
Qed.

(** X9: after the calls of the backend, [buildArtifact] in push mode adds
    at most the inspection of the tag and the warning, and only for a docker
    artifact, so it never re-tags; out of push mode it adds at most one
    [TagWithImageID], so it never inspects nor warns. *)
Theorem buildArtifact_calls ctx out a tag s :
  exists post,
    st_trace (snd (buildArtifact ctx out a tag s))
      = st_trace (snd (runBuildForArtifact ctx out a tag s)) ++ post /\
    if pushImages (st_builder s) then
      post = [] \/
      (DockerArtifact a <> None /\
       (post = [CallImageInspectWithRaw ctx tag] \/
        post = [CallImageInspectWithRaw ctx tag; CallWarnf inspect_warning]))
    else
      post = [] \/ exists I, post = [CallTagWithImageID ctx tag I].
Proof.
  destruct (buildArtifact_after_backend ctx out a tag s)
    as (post & ids & Ht & _ & _ & Hpost).
  exists post. split; [exact Ht |].
  destruct (pushImages (st_builder s)); [exact Hpost |].
  destruct Hpost as [[-> _] | (I & -> & _)]; [now left | right; now exists I].
Qed.

(** X10: in push mode [buildArtifact] fails only when the backend fails:
    its error is then the backend's error wrapped as "build artifact", the
    reference is empty and the state is the one the backend left. *)
Theorem buildArtifact_push_error ctx out a tag s r e s' :
  pushImages (st_builder s) = true ->
  buildArtifact ctx out a tag s = ((r, Some e), s') ->
  r = "" /\
  exists x cause,
    runBuildForArtifact ctx out a tag s = ((x, Some cause), s') /\
    e = ErrWrap cause "build artifact".
Proof.
  intros Hpush Hbuild.
  destruct (runBuildForArtifact ctx out a tag s) as [[D [cause|]] s1] eqn:Hrun.
  - rewrite (buildArtifact_failed _ _ _ _ _ _ _ _ Hrun) in Hbuild.
    injection Hbuild as <- <- <-. split; [reflexivity |]. now exists D, cause.
  - destruct (buildArtifact_push ctx out a tag s D s1 Hpush Hrun) as [Hfst _].
    rewrite Hbuild in Hfst. discriminate Hfst.
Qed.

(** X14: out of push mode a failure of [TagWithImageID] is returned as it
    is, not wrapped as "build artifact", with the reference the client
    returned; the identifier of the backend has been appended to the built
    images before the call and stays there. *)
Theorem buildArtifact_tagging_error ctx out a tag I s s1 r e w :
  pushImages (st_builder s) = false ->
  runBuildForArtifact ctx out a tag s = ((I, None), s1) ->
  ext_TagWithImageID ctx tag I (st_world s1) = ((r, Some e), w) ->
  buildArtifact ctx out a tag s =
    ((r, Some e),
     {| st_builder :=
          set_builtImages (builtImages (st_builder s) ++ [I]) (st_builder s);
        st_world := w;
        st_trace := st_trace s1 ++ [CallTagWithImageID ctx tag I] |}).
Proof.
  intros Hpush Hrun Htag.
  pose proof (built_builder _ _ _ _ _ _ _ Hrun) as Hb.
  rewrite (buildArtifact_succeeded _ _ _ _ _ _ _ Hrun), Hpush. rewrite <- Hb.
  unfold bind, appendBuiltImage, TagWithImageID, invoke. cbn.
  now rewrite Htag.
Qed.

(** ** Inspection *)

(** X11: [getImageIDForTag] returns an error only when the inspection
    failed; the identifier is then empty and the error is the inspection's,
    wrapped as "inspecting image". *)
Theorem getImageIDForTag_error ctx tag s id e s' :
  getImageIDForTag ctx tag s = ((id, Some e), s') ->
  id = "" /\
  exists insp cause w,
    ext_ImageInspectWithRaw ctx tag (st_world s) = ((insp, Some cause), w) /\
    e = ErrWrap cause "inspecting image" /\
    st_trace s' = st_trace s ++ [CallImageInspectWithRaw ctx tag].
Proof.
  unfold getImageIDForTag, ImageInspectWithRaw, bind, invoke, ret.
  destruct (ext_ImageInspectWithRaw ctx tag (st_world s)) as [[insp [cause|]] w];
    intros H.
  - injection H as <- <- <-. split; [reflexivity |]. now exists insp, cause, w.
  - injection H as _ H _. discriminate H.
Qed.

(** ** The build coordinator and the sync map *)

(** X12: [Build] closes the docker client on every exit path: whatever the
    sequence of builds returns, results or error, [Build] returns it
    unchanged, and [Close] is its last call, made after the sequence. *)
Theorem Build_closes ctx out (tags : gmap string string) (artifacts : list Artifact) s :
  fst (Build ctx out tags artifacts s)
    = fst (InSequence ctx out tags artifacts buildArtifact (afterGreeting out s)) /\
  last (st_trace (snd (Build ctx out tags artifacts s))) = Some CallClose /\
  st_world (snd (Build ctx out tags artifacts s))
    = ext_Close (st_world (snd (InSequence ctx out tags artifacts buildArtifact
                                  (afterGreeting out s)))).
Proof.
  rewrite Build_unfold. cbn [fst snd]. split; [reflexivity |].
  unfold Close, invoke_, invoke. cbn. split; [apply last_snoc | reflexivity].
Qed.

(** X13: the sync map goes with the docker backend: for every artifact,
    either [SyncMap] refuses with [ErrSyncMapNotSupported] without a call, or
    the artifact is one that [runBuildForArtifact] builds with the docker
    backend and [SyncMap] makes the one call to [docker.SyncMap]. *)
Theorem SyncMap_follows_docker ctx out a tag s :
  SyncMap ctx a s = ((None, Some ErrSyncMapNotSupported), s) \/
  (runBuildForArtifact ctx out a tag = buildDocker ctx out a tag /\
   exists d, DockerArtifact a = Some d /\
     st_trace (snd (SyncMap ctx a s))
       = st_trace s ++ [CallDockerSyncMap ctx (Workspace a) (DockerfilePath d)
                          (BuildArgs d) (insecureRegistries (st_builder s))] /\
     st_builder (snd (SyncMap ctx a s)) = st_builder s).
Proof.
  unfold SyncMap, runBuildForArtifact.
  destruct (DockerArtifact a) as [d|]; [right | now left].
  split; [reflexivity |]. exists d. split; [reflexivity |].
  unfold bind, getBuilder. now rewrite invoke_trace, invoke_builder.
Qed.

(** X15: a Jib artifact whose resolver names neither Maven nor Gradle makes
    [buildArtifact] fail with the error that carries the workspace, wrapped
    as "build artifact"; the resolver is the only call and the builder is
    unchanged, in either mode. *)
Theorem buildArtifact_jib_unknown ctx out a tag s j t w :
  DockerArtifact a = None -> BazelArtifact a = None -> JibArtifact a = Some j ->
  ext_DeterminePluginType (Workspace a) (Some j) (st_world s) = ((t, None), w) ->
  t <> JibMaven -> t <> JibGradle ->
  buildArtifact ctx out a tag s =
    (("", Some (ErrWrap (ErrJibBuilderType (Workspace a)) "build artifact")),
     {| st_builder := st_builder s;
        st_world := w;
        st_trace := st_trace s ++ [CallDeterminePluginType (Workspace a) (Some j)] |}).
Proof.
  intros Hd Hb Hj Hres Hm Hg.
  apply (buildArtifact_failed ctx out a tag s "").
  unfold runBuildForArtifact. rewrite Hd, Hb, Hj. cbn [notNil].
  unfold buildJib, DeterminePluginType, bind, invoke. rewrite Hj, Hres.
  destruct (decide (t = JibMaven)); [contradiction |].
  destruct (decide (t = JibGradle)); [contradiction |].
  reflexivity.
Qed.

(** X16: [Build] starts the sequence of builds with the builder as it is,
    after one line written to [out] that names the kube context when the
    session is on a local cluster, and after no call at all when it is
    not. *)
Theorem Build_greeting ctx out (tags : gmap string string) (artifacts : list Artifact) s :
  Build ctx out tags artifacts s =
    (fst (InSequence ctx out tags artifacts buildArtifact (afterGreeting out s)),
     snd (Close (snd (InSequence ctx out tags artifacts buildArtifact
                        (afterGreeting out s))))) /\
  st_builder (afterGreeting out s) = st_builder s /\
  st_trace (afterGreeting out s) =
    st_trace s ++
    (if localCluster (st_builder s) then
       [CallFprintf out ("Found [" +:+ kubeContext (st_builder s)
                         +:+ "] context, using local docker daemon." +:+ newline)]
     else []).
Proof.
  split; [apply Build_unfold |]. unfold afterGreeting.
  destruct (localCluster (st_builder s)).
  - unfold Fprintf, invoke_. now rewrite invoke_builder, invoke_trace.
  - now rewrite app_nil_r.
Qed.

End MoreProperties.

(** * The properties on the concrete session *)

Import Demo.
#[local] Existing Instance Demo.schema.
#[local] Existing Instance Demo.externals.

(** C1, as stated, fails: an artifact with both the docker and the bazel
    configuration set has two populated variants, yet the dispatcher calls
    the docker backend and succeeds with its result. *)
Lemma runBuildForArtifact_two_variants :
  length (populatedVariants (twoArt "app" ".")) = 2 /\
  fst (runBuildForArtifact bg stdout (twoArt "app" ".") "app:v1" (session true true []))
    = ("sha256:app", None) /\
  st_trace (snd (runBuildForArtifact bg stdout (twoArt "app" ".") "app:v1"
                   (session true true [])))
    = [CallBuildDocker bg stdout (twoArt "app" ".") "app:v1"] /\
  ~ (fst (runBuildForArtifact bg stdout (twoArt "app" ".") "app:v1" (session true true []))
       = ("", Some (ErrUndefinedArtifactType (twoArt "app" "."))) /\
     st_trace (snd (runBuildForArtifact bg stdout (twoArt "app" ".") "app:v1"
                      (session true true []))) = []).
Proof.
  split; [reflexivity |]. split; [reflexivity |]. split; [reflexivity |].
  intros [H _]. vm_compute in H. discriminate H.
Qed.

Lemma runBuildForArtifact_dispatch_witness :
  (runBuildForArtifact bg stdout (jibArt "web" "/src/web" "gradle") "web:v1"
     (session true true [])
   = backend VJib bg stdout (jibArt "web" "/src/web" "gradle") "web:v1"
       (session true true [])) /\
  (runBuildForArtifact bg stdout (emptyArt "none" ".") "none:v1" (session true true [])
   = (("", Some (ErrUndefinedArtifactType noType)), session true true [])).
Proof.
  split.
  - apply (proj1 (runBuildForArtifact_dispatch bg stdout
                    (jibArt "web" "/src/web" "gradle") "web:v1"
                    (session true true [])) VJib []).
    reflexivity.
  - apply (proj2 (runBuildForArtifact_dispatch bg stdout (emptyArt "none" ".")
                    "none:v1" (session true true []))).
    reflexivity.
Defined.

Lemma Build_stops_at_first_failure_witness :
  fst (Build bg stdout tags
         [dockerArt "app" "." "Dockerfile"; dockerArt "db" "." "missing";
          bazelArt "web" "." "//:web"]
         (session false true []))
  = ([{| res_ImageName := "app"; res_Tag := "gcr.io/p/app:v1" |}],
     Some (ErrWrap (ErrExternal "no such Dockerfile") "build artifact")).
Proof.
  refine (proj1 (Build_stops_at_first_failure bg stdout tags
            [dockerArt "app" "." "Dockerfile"] [bazelArt "web" "." "//:web"]
            (dockerArt "db" "." "missing") (session false true [])
            [{| res_ImageName := "app"; res_Tag := "gcr.io/p/app:v1" |}]
            (snd (InSequence bg stdout tags [dockerArt "app" "." "Dockerfile"]
                    buildArtifact (afterGreeting stdout (session false true []))))
            ""
            (ErrExternal "no such Dockerfile")
            (snd (runBuildForArtifact bg stdout (dockerArt "db" "." "missing")
                    "gcr.io/p/db:v1"
                    (snd (InSequence bg stdout tags [dockerArt "app" "." "Dockerfile"]
                            buildArtifact
                            (afterGreeting stdout (session false true []))))))
            _ _));
    vm_compute; reflexivity.
Defined.

Lemma buildArtifact_push_reference_witness :
  fst (buildArtifact bg stdout (bazelArt "web" "." "//:web") "gcr.io/p/web:v1"
         (session true true []))
  = ("gcr.io/p/web:v1@bazel:web", None).
Proof.
  refine (buildArtifact_push_reference bg stdout (bazelArt "web" "." "//:web")
            "gcr.io/p/web:v1" "bazel:web" (session true true [])
            (snd (runBuildForArtifact bg stdout (bazelArt "web" "." "//:web")
                    "gcr.io/p/web:v1" (session true true [])))
            _ _); vm_compute; reflexivity.
Defined.

Lemma buildArtifact_local_reference_witness :
  builtImages (st_builder (snd (buildArtifact bg stdout
     (dockerArt "app" "." "Dockerfile") "gcr.io/p/app:v1" (session false true []))))
  = [] ++ ["sha256:app"].
Proof.
  refine (proj1 (buildArtifact_local_reference bg stdout
            (dockerArt "app" "." "Dockerfile") "gcr.io/p/app:v1" "sha256:app"
            (session false true [])
            (snd (runBuildForArtifact bg stdout (dockerArt "app" "." "Dockerfile")
                    "gcr.io/p/app:v1" (session false true [])))
            _ _)); vm_compute; reflexivity.
Defined.

Lemma buildArtifact_inspection_failure_witness :
  fst (buildArtifact bg stdout (dockerArt "app" "." "Dockerfile") "gcr.io/p/app:v1"
         (session true false ["sha256:old"]))
  = ("gcr.io/p/app:v1@sha256:app", None) /\
  builtImages (st_builder (snd (buildArtifact bg stdout
     (dockerArt "app" "." "Dockerfile") "gcr.io/p/app:v1"
     (session true false ["sha256:old"]))))
  = ["sha256:old"].
Proof.
  refine (buildArtifact_inspection_failure bg stdout
            (dockerArt "app" "." "Dockerfile") "gcr.io/p/app:v1" "sha256:app"
            (session true false ["sha256:old"])
            (snd (runBuildForArtifact bg stdout (dockerArt "app" "." "Dockerfile")
                    "gcr.io/p/app:v1" (session true false ["sha256:old"])))
            {| ID := "" |} (ErrExternal "daemon unreachable") false
            _ _ _ _);
    try (vm_compute; reflexivity).
  discriminate.
Defined.

Lemma SyncMap_docker_only_witness :
  SyncMap bg (bazelArt "web" "." "//:web") (session false true [])
    = ((None, Some ErrSyncMapNotSupported), session false true []) /\
  fst (SyncMap bg (dockerArt "app" "." "Dockerfile") (session false true []))
    = (Some {[ "/app" := ["Dockerfile"] ]}, None).
Proof.
  split.
  - apply (proj1 (SyncMap_docker_only bg (bazelArt "web" "." "//:web")
                    (session false true []))).
    reflexivity.
  - apply (proj1 (proj2 (SyncMap_docker_only bg (dockerArt "app" "." "Dockerfile")
                           (session false true []))
                    (dockerfile "Dockerfile") eq_refl)).
Defined.

Lemma buildJib_routes_witness :
  (fst (buildJib bg stdout (jibArt "web" "/src/web" "maven") "web:v1"
          (session true true []))
     = ("mvn:/src/web", None) /\
   st_trace (snd (buildJib bg stdout (jibArt "web" "/src/web" "maven") "web:v1"
                    (session true true [])))
     = [] ++ [CallDeterminePluginType "/src/web" (Some "maven");
              CallBuildJibMaven bg stdout "/src/web" (Some "maven") "web:v1"]) /\
  (fst (buildJib bg stdout (jibArt "web" "/src/web" "gradle") "web:v1"
          (session true true []))
     = ("gradle:/src/web", None) /\
   st_trace (snd (buildJib bg stdout (jibArt "web" "/src/web" "gradle") "web:v1"
                    (session true true [])))
     = [] ++ [CallDeterminePluginType "/src/web" (Some "gradle");
              CallBuildJibGradle bg stdout "/src/web" (Some "gradle") "web:v1"]) /\
  (fst (buildJib bg stdout (jibArt "web" "/src/web" "ant") "web:v1"
          (session true true []))
     = ("", Some (ErrJibBuilderType "/src/web")) /\
   st_trace (snd (buildJib bg stdout (jibArt "web" "/src/web" "ant") "web:v1"
                    (session true true [])))
     = [] ++ [CallDeterminePluginType "/src/web" (Some "ant")]) /\
  (fst (buildJib bg stdout (jibArt "web" "/src/web" "make") "web:v1"
          (session true true []))
     = ("", Some (ErrExternal "no build file")) /\
   st_trace (snd (buildJib bg stdout (jibArt "web" "/src/web" "make") "web:v1"
                    (session true true [])))
     = [] ++ [CallDeterminePluginType "/src/web" (Some "make")]).
Proof.
  split; [| split; [| split]].
  - refine (proj1 (buildJib_routes bg stdout (jibArt "web" "/src/web" "maven")
                     "web:v1" (session true true []))
              true ("mvn:/src/web", None) true _ _); reflexivity.
  - refine (proj1 (proj2 (buildJib_routes bg stdout
                            (jibArt "web" "/src/web" "gradle")
                            "web:v1" (session true true [])))
              true ("gradle:/src/web", None) true _ _); reflexivity.
  - refine (proj1 (proj2 (proj2 (buildJib_routes bg stdout
                                   (jibArt "web" "/src/web" "ant")
                                   "web:v1" (session true true []))))
              2 true _ _ _); [reflexivity | discriminate | discriminate].
  - refine (proj2 (proj2 (proj2 (buildJib_routes bg stdout
                                   (jibArt "web" "/src/web" "make")
                                   "web:v1" (session true true []))))
              2 (ErrExternal "no build file") true _); reflexivity.
Defined.

Lemma buildArtifact_backend_failure_witness :
  fst (buildArtifact bg stdout (dockerArt "db" "." "missing") "gcr.io/p/db:v1"
         (session false true ["sha256:old"]))
    = ("", Some (ErrWrap (ErrExternal "no such Dockerfile") "build artifact")) /\
  builtImages (st_builder (snd (buildArtifact bg stdout
     (dockerArt "db" "." "missing") "gcr.io/p/db:v1"
     (session false true ["sha256:old"]))))
    = ["sha256:old"].
Proof.
  refine (buildArtifact_backend_failure bg stdout (dockerArt "db" "." "missing")
            "gcr.io/p/db:v1" (session false true ["sha256:old"]) ""
            (ErrExternal "no such Dockerfile")
            (snd (runBuildForArtifact bg stdout (dockerArt "db" "." "missing")
                    "gcr.io/p/db:v1" (session false true ["sha256:old"])))
            _); vm_compute; reflexivity.
Defined.

(** C10, as stated, fails out of push mode: a custom build that succeeds
    with the empty identifier gets it appended to the built images. *)
Lemma builtImages_gets_empty_identifier :
  ~ In "" (builtImages (st_builder (session false true []))) /\
  fst (buildArtifact bg stdout (customArt "job" "." "") "job:v1"
         (session false true []))
    = ("job:v1", None) /\
  In "" (builtImages (st_builder (snd (buildArtifact bg stdout
           (customArt "job" "." "") "job:v1" (session false true []))))).
Proof.
  split; [intros [] |]. split; [reflexivity |]. left. reflexivity.
Qed.

Lemma builtImages_without_empty_witness :
  builtImages (st_builder (snd (buildArtifact bg stdout
      (dockerArt "app" "." "Dockerfile") "dangling"
      (session true true ["sha256:old"]))))
    = ["sha256:old"] /\
  ~ In "" (builtImages (st_builder (snd (buildArtifact bg stdout
      (dockerArt "app" "." "Dockerfile") "gcr.io/p/app:v1"
      (session true true ["sha256:old"]))))).
Proof.
  split.
  - refine (proj1 (builtImages_without_empty bg stdout
                     (dockerArt "app" "." "Dockerfile") "dangling"
                     (session true true ["sha256:old"]))
              "sha256:app"
              (snd (runBuildForArtifact bg stdout (dockerArt "app" "." "Dockerfile")
                      "dangling" (session true true ["sha256:old"])))
              {| ID := "" |} true _ _ _ _); vm_compute; reflexivity.
  - apply (proj2 (builtImages_without_empty bg stdout
                    (dockerArt "app" "." "Dockerfile") "gcr.io/p/app:v1"
                    (session true true ["sha256:old"]))).
    + intros [H|[]]. discriminate H.
    + left. reflexivity.
Defined.

(** ** The further properties on the concrete session *)

Lemma DependenciesForArtifact_undefined_type_witness :
  DependenciesForArtifact bg (emptyArt "none" ".") (session false true [])
    = (([], Some (ErrUndefinedArtifactType noType)), session false true []).
Proof.
  apply (DependenciesForArtifact_undefined_type bg (emptyArt "none" ".")
           (session false true [])).
  reflexivity.
Defined.

Lemma DependenciesForArtifact_routes_witness :
  runBuildForArtifact bg stdout (twoArt "app" "/src/app") "app:v1"
    = backend VDocker bg stdout (twoArt "app" "/src/app") "app:v1" /\
  exists c,
    st_trace (snd (DependenciesForArtifact bg (twoArt "app" "/src/app")
                     (session false true [])))
      = [c] /\
    call_variant c = None.
Proof.
  destruct (DependenciesForArtifact_routes bg stdout (twoArt "app" "/src/app")
              "app:v1" (session false true []) VDocker [VBazel] eq_refl)
    as (Hbuild & c & f & _ & Hc & Htrace & _).
  split; [exact Hbuild |]. exists c. split; [exact Htrace | exact Hc].
Defined.

Lemma DependenciesForArtifact_error_witness :
  fst (DependenciesForArtifact bg (packArt "fn" "/src/fn" "heroku/buildpacks")
         (session false true []))
    = ([], Some (ErrExternal "no project descriptor")) /\
  ([] : list string) = [].
Proof.
  split; [vm_compute; reflexivity |].
  refine (proj1 (DependenciesForArtifact_error bg
                   (packArt "fn" "/src/fn" "heroku/buildpacks")
                   (session false true []) [] (ErrExternal "no project descriptor")
                   (snd (DependenciesForArtifact bg
                           (packArt "fn" "/src/fn" "heroku/buildpacks")
                           (session false true [])))
                   _)).
  vm_compute; reflexivity.
Defined.

Lemma buildArtifact_undefined_type_witness :
  buildArtifact bg stdout (emptyArt "none" ".") "none:v1" (session true true [])
    = (("", Some (ErrWrap (ErrUndefinedArtifactType noType) "build artifact")),
       session true true []).
Proof.
  apply (buildArtifact_undefined_type bg stdout (emptyArt "none" ".") "none:v1"
           (session true true [])).
  reflexivity.
Defined.

Lemma buildArtifact_push_not_docker_witness :
  buildArtifact bg stdout (bazelArt "web" "." "//:web") "gcr.io/p/web:v1"
    (session true true ["sha256:old"])
  = (("gcr.io/p/web:v1@bazel:web", None),
     snd (runBuildForArtifact bg stdout (bazelArt "web" "." "//:web")
            "gcr.io/p/web:v1" (session true true ["sha256:old"]))).
Proof.
  refine (buildArtifact_push_not_docker bg stdout (bazelArt "web" "." "//:web")
            "gcr.io/p/web:v1" "bazel:web" (session true true ["sha256:old"])
            _ _ _ _); vm_compute; reflexivity.
Defined.

Lemma buildArtifact_push_tracks_inspected_witness :
  builtImages (st_builder (snd (buildArtifact bg stdout
     (dockerArt "app" "." "Dockerfile") "gcr.io/p/app:v1"
     (session true true ["sha256:old"]))))
  = ["sha256:old"; "id:gcr.io/p/app:v1"].
Proof.
  rewrite (buildArtifact_push_tracks_inspected bg stdout
             (dockerArt "app" "." "Dockerfile") "gcr.io/p/app:v1" "sha256:app"
             (session true true ["sha256:old"])
             (snd (runBuildForArtifact bg stdout (dockerArt "app" "." "Dockerfile")
                     "gcr.io/p/app:v1" (session true true ["sha256:old"])))
             {| ID := "id:gcr.io/p/app:v1" |} true
             eq_refl ltac:(discriminate) eq_refl eq_refl ltac:(discriminate)).
  reflexivity.
Defined.

Lemma buildArtifact_push_warns_witness :
  st_trace (snd (buildArtifact bg stdout (dockerArt "app" "." "Dockerfile")
                   "gcr.io/p/app:v1" (session true false [])))
  = [CallBuildDocker bg stdout (dockerArt "app" "." "Dockerfile") "gcr.io/p/app:v1";
     CallImageInspectWithRaw bg "gcr.io/p/app:v1";
     CallWarnf inspect_warning].
Proof.
  rewrite (buildArtifact_push_warns bg stdout
             (dockerArt "app" "." "Dockerfile") "gcr.io/p/app:v1" "sha256:app"
             (session true false [])
             (snd (runBuildForArtifact bg stdout (dockerArt "app" "." "Dockerfile")
                     "gcr.io/p/app:v1" (session true false [])))
             {| ID := "" |} (ErrExternal "daemon unreachable") false
             eq_refl ltac:(discriminate) eq_refl eq_refl).
  reflexivity.
Defined.

Lemma buildArtifact_push_error_witness :
  ("" : string) = "" /\
  exists x cause,
    runBuildForArtifact bg stdout (dockerArt "db" "." "missing") "gcr.io/p/db:v1"
      (session true true [])
    = ((x, Some cause),
       snd (buildArtifact bg stdout (dockerArt "db" "." "missing") "gcr.io/p/db:v1"
              (session true true []))) /\
    ErrWrap (ErrExternal "no such Dockerfile") "build artifact"
    = ErrWrap cause "build artifact".
Proof.
  refine (buildArtifact_push_error bg stdout (dockerArt "db" "." "missing")
            "gcr.io/p/db:v1" (session true true []) ""
            (ErrWrap (ErrExternal "no such Dockerfile") "build artifact")
            (snd (buildArtifact bg stdout (dockerArt "db" "." "missing")
                    "gcr.io/p/db:v1" (session true true [])))
            _ _); vm_compute; reflexivity.
Defined.

Lemma getImageIDForTag_error_witness :
  fst (getImageIDForTag bg "gcr.io/p/app:v1" (session true false []))
    = ("", Some (ErrWrap (ErrExternal "daemon unreachable") "inspecting image")) /\
  ("" : string) = "".
Proof.
  split; [reflexivity |].
  refine (proj1 (getImageIDForTag_error bg "gcr.io/p/app:v1" (session true false [])
                   "" (ErrWrap (ErrExternal "daemon unreachable") "inspecting image")
                   (snd (getImageIDForTag bg "gcr.io/p/app:v1"
                           (session true false [])))
                   _)).
  reflexivity.
Defined.

Lemma buildArtifact_tagging_error_witness :
  fst (buildArtifact (Ext:=externals_locked) bg stdout
         (dockerArt "app" "." "Dockerfile") "gcr.io/p/app:v1"
         (session_locked false true ["sha256:old"]))
    = ("", Some (ErrExternal "tag refused")) /\
  builtImages (st_builder (snd (buildArtifact (Ext:=externals_locked) bg stdout
     (dockerArt "app" "." "Dockerfile") "gcr.io/p/app:v1"
     (session_locked false true ["sha256:old"]))))
    = ["sha256:old"; "sha256:app"].
Proof.
  rewrite (buildArtifact_tagging_error (Ext:=externals_locked) bg stdout
             (dockerArt "app" "." "Dockerfile") "gcr.io/p/app:v1" "sha256:app"
             (session_locked false true ["sha256:old"])
             (snd (runBuildForArtifact (Ext:=externals_locked) bg stdout
                     (dockerArt "app" "." "Dockerfile") "gcr.io/p/app:v1"
                     (session_locked false true ["sha256:old"])))
             "" (ErrExternal "tag refused") true
             eq_refl eq_refl eq_refl).
  split; reflexivity.
Defined.

Lemma buildArtifact_jib_unknown_witness :
  buildArtifact bg stdout (jibArt "web" "/src/web" "ant") "web:v1"
    (session false true ["sha256:old"])
  = (("", Some (ErrWrap (ErrJibBuilderType "/src/web") "build artifact")),
     {| st_builder := builder false ["sha256:old"];
        st_world := true;
        st_trace := [] ++ [CallDeterminePluginType "/src/web" (Some "ant")] |}).
Proof.
  refine (buildArtifact_jib_unknown bg stdout (jibArt "web" "/src/web" "ant")
            "web:v1" (session false true ["sha256:old"]) "ant" 2 true
            eq_refl eq_refl eq_refl eq_refl _ _); discriminate.
Defined.

Lemma DependenciesForArtifact_success_witness :
  exists v rest c f raw,
    populatedVariants (twoArt "app" "/src/app") = v :: rest /\
    depsCall v bg (st_builder (session false true [])) (twoArt "app" "/src/app")
      = Some (c, f) /\
    fst (f (st_world (session false true []))) = (raw, None) /\
    ["/src/app/Dockerfile"; "/src/app/main.go"]
      = AbsolutePaths (Workspace (twoArt "app" "/src/app")) raw /\
    st_trace (snd (DependenciesForArtifact bg (twoArt "app" "/src/app")
                     (session false true [])))
      = st_trace (session false true []) ++ [c].
Proof.
  exact (DependenciesForArtifact_success bg (twoArt "app" "/src/app")
           (session false true [])
           ["/src/app/Dockerfile"; "/src/app/main.go"]
           (snd (DependenciesForArtifact bg (twoArt "app" "/src/app")
                   (session false true [])))
           eq_refl).
Defined.
